(** * nestjs-rr7: cache-first GitHub status lookup, provider selection,
      configuration validation, health indicator and telemetry helpers

    A shallow embedding of the server-side TypeScript sources:

    - [server/github/github-status.provider.default.ts]
      ([DefaultGitHubStatusProvider.getSummary]),
    - [server/github/github.module.ts] ([GitHubStatusProviderFactory]),
    - [server/github/github.config.ts] and [server/app.config.ts]
      ([GitHubConfig], [validateConfigSlice], [formatValidationErrors]),
    - [server/github/github-status.health.ts] ([GitHubStatusIndicator.isHealthy]),
    - [server/telemetry/telemetry.provider.ts] ([withSpan], [initFromConfig],
      [onModuleInit], [onModuleDestroy], [count]),
    - [server/app.bootstrap.ts] ([wrapWithNestLogger], [registerSsrFallback]),
    - [app/routes/home.tsx] ([loader]).

    Promises are modelled by their settlement ([Outcome]); the mutable
    collaborators (cache, clock, logger, spans, [global.__otel_sdk]) are
    threaded explicitly as state. *)

From Stdlib Require Import ZArith Ascii String List Lia Bool.
From Stdlib Require SpecFloat.
From stdpp Require Import base option list gmap strings pretty.

Local Open Scope string_scope.
Local Open Scope Z_scope.

Set Warnings "-register-all".

(** ** JavaScript values, thrown values and settlements *)

Module Js.

(** The JSON-shaped values that travel through the cache and the HTTP
    client. Numbers are restricted to integers: payloads are opaque to the
    server code, which only tests them for truthiness. *)
Inductive JsValue : Type :=
  | JUndefined
  | JNull
  | JBool (b : bool)
  | JNumber (n : Z)
  | JString (s : string)
  | JArray (items : list JsValue)
  | JObject (fields : list (string * JsValue)).

(** ToBoolean, as applied by [if (cachedSummary)] and [if (global.__otel_sdk)]. *)
Definition truthy (v : JsValue) : bool :=
  match v with
  | JUndefined | JNull => false
  | JBool b => b
  | JNumber n => negb (n =? 0)
  | JString s => negb (String.eqb s "")
  | JArray _ | JObject _ => true
  end.

(** [Readonly<Record<string, unknown>>]: the values of type
    [GitHubStatusSummary] are the objects. *)
Definition isRecord (v : JsValue) : bool :=
  match v with
  | JObject _ => true
  | _ => false
  end.

(** [String(v)] for a value that is not an [Error]. *)
Fixpoint toString (v : JsValue) : string :=
  match v with
  | JUndefined => "undefined"
  | JNull => "null"
  | JBool true => "true"
  | JBool false => "false"
  | JNumber n => pretty n
  | JString s => s
  | JArray items =>
      String.concat ","
        (List.map (fun item => match item with
                               | JUndefined | JNull => ""
                               | _ => toString item
                               end) items)
  | JObject _ => "[object Object]"
  end.

(** What a [throw] or a rejected promise carries. [Error] instances expose
    [name] and [message]; their [stack] is a runtime string that is kept
    symbolic (see [Detail]). A [Response] is what React Router loaders throw
    for control flow. *)
Inductive Thrown : Type :=
  | ErrorObject (name message : string)
  | FetchResponse (status : Z)
  | Value (v : JsValue).

(** [error instanceof Error] *)
Definition isError (e : Thrown) : bool :=
  match e with
  | ErrorObject _ _ => true
  | _ => false
  end.

(** [error instanceof Response] *)
Definition isFetchResponse (e : Thrown) : bool :=
  match e with
  | FetchResponse _ => true
  | _ => false
  end.

(** [String(err)] for an arbitrary thrown value. *)
Definition stringOf (e : Thrown) : string :=
  match e with
  | ErrorObject name message =>
      if String.eqb message "" then name else name ++ ": " ++ message
  | FetchResponse _ => "[object Response]"
  | Value v => toString v
  end.

(** [new Error(message)] *)
Definition newError (message : string) : Thrown := ErrorObject "Error" message.

(** A text computed at run time from a thrown value: either a string the
    code builds itself, or the [stack] property of an [Error], which only
    the runtime knows. *)
Inductive Detail : Type :=
  | Text (s : string)
  | StackOf (e : Thrown)
  | Missing.

(** How a call or an awaited promise ends. *)
Inductive Outcome (A : Type) : Type :=
  | Return (a : A)
  | Throw (e : Thrown).

Arguments Return {A} a.
Arguments Throw {A} e.

Definition resolved {A} (o : Outcome A) : bool :=
  match o with
  | Return _ => true
  | Throw _ => false
  end.

End Js.

Import Js.

(** ** The world the server code runs in

    One record holds what the injected collaborators own: the entries of the
    cache manager, the wall clock (milliseconds) and the chronological trace
    of the calls made on the cache, the HTTP client and the logger. *)

(** An entry of the cache: the value and the instant after which it is
    gone, or no such instant for an entry that does not expire. *)
Record CacheEntry : Type := { entryValue : JsValue; expiresAt : option Z }.

Inductive Event : Type :=
  | CacheGet (key : string)
  | CacheSet (key : string) (value : JsValue) (ttl : Z)
  | HttpGet (url : string)
  | LogError (context message : string) (detail : Detail).

Record World : Type := {
  cache : gmap string CacheEntry;
  now : Z;
  trace : list Event
}.

Definition record (ev : Event) (w : World) : World :=
  {| cache := cache w; now := now w; trace := trace w ++ [ev] |}.

(** Time passing while the caller is suspended, or between two calls. *)
Definition advance (ms : Z) (w : World) : World :=
  {| cache := cache w; now := now w + ms; trace := trace w |}.

Definition isHttpGet (ev : Event) : bool :=
  match ev with
  | HttpGet _ => true
  | _ => false
  end.

Definition isCacheSet (ev : Event) : bool :=
  match ev with
  | CacheSet _ _ _ => true
  | _ => false
  end.

(** Number of upstream requests issued so far. *)
Definition upstreamCalls (w : World) : nat :=
  length (List.filter isHttpGet (trace w)).

(** Number of cache writes issued so far. *)
Definition cacheWrites (w : World) : nat :=
  length (List.filter isCacheSet (trace w)).

(** ** Async functions

    An [async] function is run to its settlement: it maps the world at the
    call to the settlement of its promise and the world at that moment.
    [await] is bind; a rejection short-circuits the rest of the body. *)

Definition Async (A : Type) : Type := World -> Outcome A * World.

#[export] Instance Async_ret : MRet Async :=
  fun A a w => (Return a, w).

#[export] Instance Async_bind : MBind Async :=
  fun A B k m w =>
    match m w with
    | (Return a, w') => k a w'
    | (Throw e, w') => (Throw e, w')
    end.

Definition throw {A : Type} (e : Thrown) : Async A :=
  fun w => (Throw e, w).

(** [try { body } catch (err) { handler(err) }] *)
Definition tryCatch {A : Type} (body : Async A) (handler : Thrown -> Async A) : Async A :=
  fun w =>
    match body w with
    | (Return a, w') => (Return a, w')
    | (Throw e, w') => handler e w'
    end.

(** ** The cache collaborator

    [cache-manager]'s [Cache]: [get(key)] yields the stored value or
    [undefined], [set(key, value, ttl)] replaces the entry under [key]. The
    cache reads the [ttl] of [set] in milliseconds, whatever the caller calls
    it: the entry is served up to and including the instant [ttl]
    milliseconds after the write and is gone afterwards. A [ttl] of zero
    stands for no TTL: the entry does not expire. *)

Module CacheManager.

(** Whether an entry is still served at an instant. *)
Definition live (instant : Z) (entry : CacheEntry) : bool :=
  match expiresAt entry with
  | Some expiry => instant <=? expiry
  | None => true
  end.

Definition peek (key : string) (w : World) : JsValue :=
  match cache w !! key with
  | Some entry => if live (now w) entry then entryValue entry else JUndefined
  | None => JUndefined
  end.

Definition get (key : string) : Async JsValue :=
  fun w => (Return (peek key w), record (CacheGet key) w).

(** The expiry of an entry written at [instant] with [ttl] milliseconds. *)
Definition expiry (instant ttl : Z) : option Z :=
  if ttl =? 0 then None else Some (instant + ttl).

Definition store (key : string) (value : JsValue) (ttl : Z) (w : World) : World :=
  {| cache := <[key := {| entryValue := value; expiresAt := expiry (now w) ttl |}]> (cache w);
     now := now w;
     trace := trace w |}.

Definition set (key : string) (value : JsValue) (ttl : Z) : Async unit :=
  fun w => (Return tt, record (CacheSet key value ttl) (store key value ttl w)).

End CacheManager.

(** ** The HTTP collaborator

    What the upstream does with a request sent at a given instant: it
    answers with a status and a body after some latency, or the exchange
    breaks after some latency with an error of the network layer, which has
    a name (for Node's system errors, [Error]) and a message. An upstream
    that never answers is any latency at or beyond the caller's timeout. *)

Inductive Upstream : Type :=
  | Responds (latencyMs : Z) (status : Z) (body : JsValue)
  | Breaks (latencyMs : Z) (name message : string).

Definition HttpService : Type := string -> Z -> Upstream.

Record AxiosResponse : Type := { status : Z; data : JsValue }.

(** A cold observable with a single notification: subscribing runs the
    effect and yields, after [elapsed] milliseconds, a value or an error. *)
Record Notification (A : Type) : Type := { elapsed : Z; settles : Outcome A }.
Arguments elapsed {A} _.
Arguments settles {A} _.

Definition Observable (A : Type) : Type := World -> Notification A * World.

(** axios' default [validateStatus] *)
Definition validateStatus (status : Z) : bool :=
  (200 <=? status) && (status <? 300).

Definition AxiosError (message : string) : Thrown := ErrorObject "AxiosError" message.

Definition TimeoutError : Thrown := ErrorObject "TimeoutError" "Timeout has occurred".

(** [HttpService.get(url)]: the request is sent on subscription. A status
    outside 2xx errors with axios' own [AxiosError]; a broken exchange
    errors with the network layer's error as axios wraps it
    ([AxiosError.from]), which keeps that error's name and message. *)
Definition httpGet (http : HttpService) (url : string) : Observable AxiosResponse :=
  fun w =>
    let w' := record (HttpGet url) w in
    match http url (now w) with
    | Responds latency code body =>
        if validateStatus code
        then ({| elapsed := latency; settles := Return {| status := code; data := body |} |}, w')
        else ({| elapsed := latency;
                 settles := Throw (AxiosError ("Request failed with status code " ++ pretty code)) |}, w')
    | Breaks latency name message =>
        ({| elapsed := latency; settles := Throw (ErrorObject name message) |}, w')
    end.

(** rxjs [timeout(ms)]: errors with a [TimeoutError] unless the source
    notifies before [ms] milliseconds have passed. *)
Definition timeout {A : Type} (ms : Z) (source : Observable A) : Observable A :=
  fun w =>
    let (n, w') := source w in
    if ms <=? elapsed n
    then ({| elapsed := ms; settles := Throw TimeoutError |}, w')
    else (n, w').

(** rxjs [firstValueFrom]: a promise for the first notification. *)
Definition firstValueFrom {A : Type} (source : Observable A) : Async A :=
  fun w =>
    let (n, w') := source w in
    (settles n, advance (elapsed n) w').

(** ** Application configuration

    The validated [appConfig] namespace as the providers read it: the merge
    of the [CoreConfig], [GitHubConfig] and [TelemetryConfig] slices. The
    numeric settings have passed [IsInt], so they are integers here. *)

Record AppConfig : Type := {
  nodeEnv : string;
  port : Z;
  debug : bool;
  githubStatusUrl : string;
  githubStatusCacheTtlMs : Z;
  githubStatusProviderType : string;
  githubStatusTimeoutMs : Z;
  telemetryEnabled : bool;
  otelExporterOtlpEndpoint : string;
  otelServiceName : string;
  otelServiceVersion : string;
  otelExportIntervalMs : Z
}.

(** The double nearest to an integer (the integer itself when it is one of
    the doubles, as every integer setting is). *)
Definition toDouble (a : Z) : SpecFloat.spec_float :=
  SpecFloat.binary_normalize 53 1024 a 0 false.

(** [Math.ceil] of a finite double. An infinity or NaN, which the quotient
    of two integer settings never is, is sent to zero. *)
Definition Math_ceil (x : SpecFloat.spec_float) : Z :=
  match x with
  | SpecFloat.S754_finite negative mantissa exponent =>
      match exponent with
      | Zneg bits =>
          if negative
          then - (Z.pos mantissa / 2 ^ Z.pos bits)
          else - ((- Z.pos mantissa) / 2 ^ Z.pos bits)
      | _ => (if negative then -1 else 1) * Z.pos mantissa * 2 ^ exponent
      end
  | _ => 0
  end.

(** [Math.ceil(a / b)] for integers [a] and [b], the division being the one
    of IEEE 754 binary64 (round to nearest, ties to even). *)
Definition Math_ceil_div (a b : Z) : Z :=
  Math_ceil (SpecFloat.SFdiv 53 1024 (toDouble a) (toDouble b)).

(** ** github-status.provider.ts: the provider interface *)

Record GitHubStatusProvider : Type := { getSummary : Async JsValue }.

(** ** github-status.provider.default.ts *)

Module DefaultGitHubStatusProvider.

(** The injected dependencies; the cache manager lives in the [World]. *)
Record t : Type := { appConfig : AppConfig; http : HttpService }.

Definition summaryKey : string := "github-status:summary".

Definition getSummary (this : t) : Async JsValue :=
  cachedSummary ← CacheManager.get "github-status:summary";
  if truthy cachedSummary
  then mret cachedSummary
  else
    response ← firstValueFrom
                 (timeout (githubStatusTimeoutMs (appConfig this))
                    (httpGet (http this) (githubStatusUrl (appConfig this))));
    let cacheTtlSeconds := Math_ceil_div (githubStatusCacheTtlMs (appConfig this)) 1000 in
    _ ← CacheManager.set "github-status:summary" (data response) cacheTtlSeconds;
    mret (data response).

Definition provider (this : t) : GitHubStatusProvider :=
  Build_GitHubStatusProvider (getSummary this).

End DefaultGitHubStatusProvider.

(** ** github.module.ts: provider selection *)

Module GitHubModule.

(** [useFactory]: the injected default and mock providers are of two
    classes; the result says which of the two is bound to the
    [GITHUB_STATUS_PROVIDER] token. *)
Definition GitHubStatusProviderFactory {Default Mock : Type}
    (appConfig : AppConfig) (defaultProvider : Default) (mockProvider : Mock)
  : Outcome (Default + Mock) :=
  if String.eqb (githubStatusProviderType appConfig) "default" then Return (inl defaultProvider)
  else if String.eqb (githubStatusProviderType appConfig) "mock" then Return (inr mockProvider)
  else Throw (newError ("Unknown githubStatusProviderType: " ++ githubStatusProviderType appConfig)).

End GitHubModule.

(** ** github-status.health.ts *)

Module Health.

Inductive HealthStatus : Type := Up | Down.

(** [{ [key]: { status, ...data } }] *)
Record HealthIndicatorResult : Type := {
  indicatorKey : string;
  indicatorStatus : HealthStatus;
  indicatorData : list (string * string)
}.

(** [HealthIndicatorService.check(key)] and the session's [up] and [down]. *)
Definition up (key : string) : HealthIndicatorResult :=
  {| indicatorKey := key; indicatorStatus := Up; indicatorData := [] |}.

Definition down (key : string) (data : list (string * string)) : HealthIndicatorResult :=
  {| indicatorKey := key; indicatorStatus := Down; indicatorData := data |}.

Definition logError (context message : string) (detail : Detail) : Async unit :=
  fun w => (Return tt, record (LogError context message detail) w).

(** [err instanceof Error ? err.stack : String(err)] *)
Definition stackOrString (err : Thrown) : Detail :=
  if isError err then StackOf err else Text (stringOf err).

(** [err instanceof Error ? err.message : String(err)] *)
Definition messageOrString (err : Thrown) : string :=
  match err with
  | ErrorObject _ message => message
  | _ => stringOf err
  end.

Definition isHealthy (githubStatusProvider : GitHubStatusProvider) (key : string)
  : Async HealthIndicatorResult :=
  tryCatch
    (_ ← getSummary githubStatusProvider;
     mret (up key))
    (fun err =>
       _ ← logError "GitHubStatusIndicator" "GitHub health check failed" (stackOrString err);
       mret (down key [("message", "GitHub status check failed");
                       ("error", messageOrString err)])).

End Health.

(** ** telemetry.provider.ts *)

Module Telemetry.

(** *** Spans *)

Inductive SpanStatusCode : Type := UNSET | OK | ERROR.

(** The argument of [span.recordException]. *)
Record Exception : Type := {
  exceptionName : string;
  exceptionMessage : option string;
  exceptionStack : Detail
}.

(** A span, as far as the provider drives it: how often [end()] was called
    on it, the exceptions recorded and the last status set. *)
Record Span : Type := {
  tracerName : string;
  tracerVersion : string;
  spanName : string;
  spanOptions : option (list (string * string));
  endCalls : nat;
  exceptions : list Exception;
  spanStatus : SpanStatusCode * option string
}.

(** [trace.getTracer(name, version).startSpan(name, options)] *)
Definition startSpan (appConfig : AppConfig) (name : string)
    (options : option (list (string * string))) : Span :=
  {| tracerName := otelServiceName appConfig;
     tracerVersion := otelServiceVersion appConfig;
     spanName := name;
     spanOptions := options;
     endCalls := 0;
     exceptions := [];
     spanStatus := (UNSET, None) |}.

(** [span.end()] *)
Definition endSpan (span : Span) : Span :=
  {| tracerName := tracerName span; tracerVersion := tracerVersion span;
     spanName := spanName span; spanOptions := spanOptions span;
     endCalls := S (endCalls span);
     exceptions := exceptions span;
     spanStatus := spanStatus span |}.

Definition recordException (ex : Exception) (span : Span) : Span :=
  {| tracerName := tracerName span; tracerVersion := tracerVersion span;
     spanName := spanName span; spanOptions := spanOptions span;
     endCalls := endCalls span;
     exceptions := exceptions span ++ [ex];
     spanStatus := spanStatus span |}.

Definition setStatus (code : SpanStatusCode) (message : option string) (span : Span) : Span :=
  {| tracerName := tracerName span; tracerVersion := tracerVersion span;
     spanName := spanName span; spanOptions := spanOptions span;
     endCalls := endCalls span;
     exceptions := exceptions span;
     spanStatus := (code, message) |}.

Definition getMessage (error : Thrown) : option string :=
  match error with
  | ErrorObject _ message => Some message
  | _ => None
  end.

Definition getName (error : Thrown) : string :=
  match error with
  | ErrorObject name _ => name
  | _ => stringOf error
  end.

Definition getStack (error : Thrown) : Detail :=
  if isError error then StackOf error else Missing.

Definition recordSpanException (error : Thrown) (span : Span) : Span :=
  if negb (isFetchResponse error)
  then setStatus ERROR (getMessage error)
         (recordException {| exceptionName := getName error;
                             exceptionMessage := getMessage error;
                             exceptionStack := getStack error |} span)
  else span.

(** How a callback ends: it returns a plain value or throws, or it returns
    a promise, which later resolves or rejects. *)
Inductive Completion (T : Type) : Type :=
  | Sync (o : Outcome T)
  | Promised (p : Outcome T).

Arguments Sync {T} o.
Arguments Promised {T} p.

(** A callback receives the span and may use it; it yields its completion
    and the span as it has left it (for a promise: at settlement). *)
Definition Callback (T : Type) : Type := Span -> Completion T * Span.

Definition withSpan {T : Type} (appConfig : AppConfig) (name : string) (fn : Callback T)
    (options : option (list (string * string))) : Completion T * Span :=
  let span := startSpan appConfig name options in
  match fn span with
  | (Promised (Return res), span) => (Promised (Return res), endSpan span)
  | (Promised (Throw error), span) => (Promised (Throw error), endSpan (recordSpanException error span))
  | (Sync (Return result), span) => (Sync (Return result), endSpan span)
  | (Sync (Throw error), span) => (Sync (Throw error), endSpan (recordSpanException error span))
  end.

(** *** SDK bootstrap *)

(** The validated [TelemetryConfig] slice. *)
Record TelemetryConfig : Type := {
  telemetryEnabled : bool;
  otelExporterOtlpEndpoint : string;
  otelServiceName : string;
  otelServiceVersion : string;
  otelExportIntervalMs : Z
}.

(** A constructed [NodeSDK]; [instanceId] is the object's identity. *)
Record NodeSDK : Type := {
  instanceId : nat;
  metricExporterUrl : string;
  exportIntervalMillis : Z;
  resourceServiceName : string;
  resourceServiceVersion : string;
  traceExporterUrl : string
}.

(** Process-wide state: the [global.__otel_sdk] slot, the number of SDKs
    constructed so far and the provider's log lines. *)
Record Global : Type := {
  __otel_sdk : option NodeSDK;
  constructed : nat;
  logged : list string
}.

Definition log (line : string) (g : Global) : Global :=
  {| __otel_sdk := __otel_sdk g; constructed := constructed g; logged := logged g ++ [line] |}.

Definition initFromConfig (cfg : TelemetryConfig) (g : Global) : option NodeSDK * Global :=
  if negb (telemetryEnabled cfg)
  then (None, log "Telemetry disabled by configuration; not initializing SDK" g)
  else
    let endpoint := otelExporterOtlpEndpoint cfg in
    let serviceName := otelServiceName cfg in
    let serviceVersion := otelServiceVersion cfg in
    let exportIntervalMillis := otelExportIntervalMs cfg in
    match __otel_sdk g with
    | Some sdk => (Some sdk, g)
    | None =>
        let sdk := {| instanceId := constructed g;
                      metricExporterUrl := endpoint ++ "/v1/metrics";
                      exportIntervalMillis := exportIntervalMillis;
                      resourceServiceName := serviceName;
                      resourceServiceVersion := serviceVersion;
                      traceExporterUrl := endpoint ++ "/v1/traces" |} in
        let g' := {| __otel_sdk := Some sdk; constructed := S (constructed g); logged := logged g |} in
        (__otel_sdk g',
         log ("Telemetry initialized; exporting to " ++ endpoint
              ++ " (service=" ++ serviceName ++ "@" ++ serviceVersion ++ ")") g')
    end.

(** A run of the process during which [initFromConfig] is called with the
    given configurations, in order; the results are listed in call order. *)
Fixpoint initAll (cfgs : list TelemetryConfig) (g : Global) : list (option NodeSDK) * Global :=
  match cfgs with
  | [] => ([], g)
  | cfg :: rest =>
      let (r, g1) := initFromConfig cfg g in
      let (rs, g2) := initAll rest g1 in
      (r :: rs, g2)
  end.

End Telemetry.

(** ** app.config.ts and github.config.ts: loading the GitHub slice *)

Module Config.

(** A JavaScript number as the validators see it: [Number.isInteger] holds
    of the integers; for any other number (a fraction, an infinity, NaN)
    only the result of [value >= 0] matters. *)
Inductive JsNumber : Type :=
  | Integer (z : Z)
  | NonInteger (nonNegative : bool).

(** class-validator's [isInt]. *)
Definition isInt (value : JsNumber) : bool :=
  match value with
  | Integer _ => true
  | NonInteger _ => false
  end.

(** [min(value, 0)] *)
Definition minZero (value : JsNumber) : bool :=
  match value with
  | Integer z => 0 <=? z
  | NonInteger nonNegative => nonNegative
  end.

(** class-validator's [isIn]. *)
Definition isIn (value : string) (possibleValues : list string) : bool :=
  existsb (String.eqb value) possibleValues.

(** [process.env]: the variables that are set, with their string values. *)
Abbreviation Env := (gmap string string).

(** The class instance built by class-transformer, before validation. *)
Record GitHubConfig : Type := {
  githubStatusUrl : string;
  githubStatusCacheTtlMs : JsNumber;
  githubStatusProviderType : string;
  githubStatusTimeoutMs : JsNumber
}.

(** The property initializers of the class. *)
Definition defaults : GitHubConfig :=
  {| githubStatusUrl := "https://www.githubstatus.com/api/v2/summary.json";
     githubStatusCacheTtlMs := Integer 60000;
     githubStatusProviderType := "mock";
     githubStatusTimeoutMs := Integer 2000 |}.

(** class-validator's [ValidationError], as [formatValidationErrors] reads it. *)
Record ValidationError : Type := {
  property : string;
  constraints : option (list (string * string))
}.

Definition formatValidationErrors (errors : list ValidationError) : string :=
  String.concat "; "
    (List.map (fun error =>
                 let constraints :=
                   match constraints error with
                   | Some violated => String.concat ", " (List.map snd violated)
                   | None => "invalid value"
                   end in
                 property error ++ ": " ++ constraints)
       errors).

Section Loading.

(** The two library functions the loading depends on: JavaScript's
    [Number] on strings, and validator.js' [isURL] with the options
    [{ require_tld: true, require_protocol: true }]. *)
Variable Number : string -> JsNumber.
Variable isURL : string -> bool.

(** [toNumber()] *)
Definition toNumber (value : string) : JsNumber := Number value.

(** One exposed property under [exposeDefaultValues]: a variable that is
    set is converted, a missing one leaves the initializer's value. *)
Definition expose {A : Type} (source : Env) (name : string)
    (transform : string -> A) (initial : A) : A :=
  match source !! name with
  | Some value => transform value
  | None => initial
  end.

(** [plainToInstance(GitHubConfig, source, ...)] *)
Definition plainToInstance (source : Env) : GitHubConfig :=
  {| githubStatusUrl :=
       expose source "GITHUB_STATUS_URL" id (githubStatusUrl defaults);
     githubStatusCacheTtlMs :=
       expose source "GITHUB_STATUS_CACHE_TTL_MS" toNumber (githubStatusCacheTtlMs defaults);
     githubStatusProviderType :=
       expose source "GITHUB_STATUS_PROVIDER_TYPE" id (githubStatusProviderType defaults);
     githubStatusTimeoutMs :=
       expose source "GITHUB_STATUS_TIMEOUT_MS" toNumber (githubStatusTimeoutMs defaults) |}.

(** The constraints a property violates; decorators register bottom-up. *)
Definition violated (checks : list (bool * (string * string))) : list (string * string) :=
  List.map snd (List.filter (fun check => negb (fst check)) checks).

Definition check_githubStatusUrl (instance : GitHubConfig) : list (string * string) :=
  violated [(isURL (githubStatusUrl instance),
             ("isUrl", "GITHUB_STATUS_URL must be a valid absolute URL"))].

Definition check_githubStatusCacheTtlMs (instance : GitHubConfig) : list (string * string) :=
  violated [(minZero (githubStatusCacheTtlMs instance),
             ("min", "GITHUB_STATUS_CACHE_TTL_MS must be >= 0"));
            (isInt (githubStatusCacheTtlMs instance),
             ("isInt", "GITHUB_STATUS_CACHE_TTL_MS must be an integer"))].

Definition check_githubStatusProviderType (instance : GitHubConfig) : list (string * string) :=
  violated [(isIn (githubStatusProviderType instance) ["mock"; "default"],
             ("isIn", "GITHUB_STATUS_PROVIDER_TYPE must be one of: mock, default"))].

Definition check_githubStatusTimeoutMs (instance : GitHubConfig) : list (string * string) :=
  violated [(minZero (githubStatusTimeoutMs instance),
             ("min", "GITHUB_STATUS_TIMEOUT_MS must be >= 0"));
            (isInt (githubStatusTimeoutMs instance),
             ("isInt", "GITHUB_STATUS_TIMEOUT_MS must be an integer"))].

(** [validateSync(instance, ...)]: one error per property that violates
    a constraint, in declaration order. *)
Definition validateSync (instance : GitHubConfig) : list ValidationError :=
  List.filter
    (fun error => match constraints error with
                  | Some (_ :: _) => true
                  | _ => false
                  end)
    [ {| property := "githubStatusUrl";
         constraints := Some (check_githubStatusUrl instance) |};
      {| property := "githubStatusCacheTtlMs";
         constraints := Some (check_githubStatusCacheTtlMs instance) |};
      {| property := "githubStatusProviderType";
         constraints := Some (check_githubStatusProviderType instance) |};
      {| property := "githubStatusTimeoutMs";
         constraints := Some (check_githubStatusTimeoutMs instance) |} ].

(** [validateConfigSlice(GitHubConfig, source)] *)
Definition validateConfigSlice (source : Env) : Outcome GitHubConfig :=
  let instance := plainToInstance source in
  let errors := validateSync instance in
  if (0 <? length errors)%nat
  then Throw (newError ("Invalid environment variables: " ++ formatValidationErrors errors))
  else Return instance.

End Loading.

End Config.

(** [appConfig] spreads the validated slice next to the other slices: it
    carries the slice when it shows the same four settings. *)
Definition carries (appConfig : AppConfig) (slice : Config.GitHubConfig) : Prop :=
  githubStatusUrl appConfig = Config.githubStatusUrl slice
  /\ Config.Integer (githubStatusCacheTtlMs appConfig) = Config.githubStatusCacheTtlMs slice
  /\ githubStatusProviderType appConfig = Config.githubStatusProviderType slice
  /\ Config.Integer (githubStatusTimeoutMs appConfig) = Config.githubStatusTimeoutMs slice.

(** ** A reference runtime for evaluating examples

    Executable stand-ins for the two library functions of [Config.Loading],
    exact on the inputs the examples give them: [Number] on optionally
    signed decimal literals below 2^53 (any other text is read as NaN here),
    [isURL] on URLs of the shape [scheme://host.name/path] with scheme
    [http], [https] or [ftp] (other shapes are rejected here). *)

Module Reference.

Definition digitValue (c : Ascii.ascii) : option Z :=
  let n := Z.of_N (Ascii.N_of_ascii c) in
  if (48 <=? n) && (n <=? 57) then Some (n - 48) else None.

Fixpoint digits (s : string) (acc : Z) : option Z :=
  match s with
  | EmptyString => Some acc
  | String c rest =>
      match digitValue c with
      | Some d => digits rest (10 * acc + d)
      | None => None
      end
  end.

Definition unsigned (s : string) : option Z :=
  match s with
  | EmptyString => None
  | _ => digits s 0
  end.

Definition Number (s : string) : Config.JsNumber :=
  match s with
  | EmptyString => Config.Integer 0
  | String c rest =>
      let signed (sign : Z) (body : string) :=
        match unsigned body with
        | Some z => Config.Integer (sign * z)
        | None => Config.NonInteger false
        end in
      if Ascii.eqb c "-"%char then signed (-1) rest
      else if Ascii.eqb c "+"%char then signed 1 rest
      else signed 1 s
  end.

Definition isLetter (c : Ascii.ascii) : bool :=
  let n := Z.of_N (Ascii.N_of_ascii c) in
  ((97 <=? n) && (n <=? 122)) || ((65 <=? n) && (n <=? 90)).

Definition isLabelChar (c : Ascii.ascii) : bool :=
  isLetter c || bool_decide (is_Some (digitValue c)) || Ascii.eqb c "-"%char.

(** Splits [s] at every occurrence of [sep]; [current] is the piece being
    read, in reverse. *)
Fixpoint splitOn (sep : Ascii.ascii) (s : string) (current : list Ascii.ascii) : list (list Ascii.ascii) :=
  match s with
  | EmptyString => [rev current]
  | String c rest =>
      if Ascii.eqb c sep then rev current :: splitOn sep rest []
      else splitOn sep rest (c :: current)
  end.

Fixpoint authority (s : string) : string :=
  match s with
  | EmptyString => EmptyString
  | String c rest =>
      if Ascii.eqb c "/"%char || Ascii.eqb c "?"%char || Ascii.eqb c "#"%char then EmptyString
      else String c (authority rest)
  end.

Definition isLabel (label : list Ascii.ascii) : bool :=
  match label with
  | [] => false
  | first :: _ =>
      forallb isLabelChar label
      && negb (Ascii.eqb first "-"%char)
      && negb (Ascii.eqb (List.last label first) "-"%char)
      && (length label <=? 63)%nat
  end.

Definition isTld (label : list Ascii.ascii) : bool :=
  forallb isLetter label && (2 <=? length label)%nat.

Definition isFQDN (host : string) : bool :=
  let labels := splitOn "."%char host [] in
  (2 <=? length labels)%nat
  && forallb isLabel labels
  && isTld (List.last labels []).

Definition afterScheme (s : string) : option string :=
  let strip (scheme : string) :=
    if String.prefix scheme s
    then Some (String.substring (String.length scheme) (String.length s - String.length scheme) s)
    else None in
  match strip "https://", strip "http://", strip "ftp://" with
  | Some rest, _, _ | None, Some rest, _ | None, None, Some rest => Some rest
  | None, None, None => None
  end.

Definition isURL (s : string) : bool :=
  match afterScheme s with
  | Some rest => isFQDN (authority rest) && forallb (fun c => negb (Ascii.eqb c " "%char)) (list_ascii_of_string s)
  | None => false
  end.

End Reference.

(** ** Fixtures for the examples *)

Module Examples.

Definition settings (cacheTtlMs timeoutMs : Z) (providerType : string) : AppConfig :=
  {| nodeEnv := "development";
     port := 3000;
     debug := false;
     githubStatusUrl := "https://www.githubstatus.com/api/v2/summary.json";
     githubStatusCacheTtlMs := cacheTtlMs;
     githubStatusProviderType := providerType;
     githubStatusTimeoutMs := timeoutMs;
     telemetryEnabled := false;
     otelExporterOtlpEndpoint := "http://localhost:4318";
     otelServiceName := "nestjs-rr7";
     otelServiceVersion := "0.0.0";
     otelExportIntervalMs := 60000 |}.

Definition operational : JsValue :=
  JObject [("page", JObject [("name", JString "GitHub")]);
           ("status", JObject [("indicator", JString "none");
                               ("description", JString "All Systems Operational")])].

(** Upstreams: one that answers 200 after 120 ms, one that answers 500,
    one that answers after five seconds, one that cannot be reached. *)
Definition healthy : HttpService := fun _ _ => Responds 120 200 operational.
Definition erroring : HttpService := fun _ _ => Responds 80 500 (JString "Internal Server Error").
Definition slow : HttpService := fun _ _ => Responds 5000 200 operational.
Definition offline : HttpService :=
  fun _ _ => Breaks 15 "Error" "getaddrinfo ENOTFOUND www.githubstatus.com".

(** A freshly started process: empty cache, clock at zero, nothing traced. *)
Definition boot : World := {| cache := ∅; now := 0; trace := [] |}.

Definition providerWith (cacheTtlMs : Z) (http : HttpService) : DefaultGitHubStatusProvider.t :=
  {| DefaultGitHubStatusProvider.appConfig := settings cacheTtlMs 2000 "default";
     DefaultGitHubStatusProvider.http := http |}.

(** Telemetry configurations: enabled, enabled with another exporter and
    service, and disabled; and a process in which no SDK exists yet. *)
Definition telemetryOn : Telemetry.TelemetryConfig :=
  {| Telemetry.telemetryEnabled := true;
     Telemetry.otelExporterOtlpEndpoint := "http://localhost:4318";
     Telemetry.otelServiceName := "nestjs-rr7";
     Telemetry.otelServiceVersion := "0.0.0";
     Telemetry.otelExportIntervalMs := 60000 |}.

Definition telemetryElsewhere : Telemetry.TelemetryConfig :=
  {| Telemetry.telemetryEnabled := true;
     Telemetry.otelExporterOtlpEndpoint := "http://collector:4318";
     Telemetry.otelServiceName := "other-service";
     Telemetry.otelServiceVersion := "1.2.3";
     Telemetry.otelExportIntervalMs := 1000 |}.

Definition telemetryOff : Telemetry.TelemetryConfig :=
  {| Telemetry.telemetryEnabled := false;
     Telemetry.otelExporterOtlpEndpoint := "http://localhost:4318";
     Telemetry.otelServiceName := "nestjs-rr7";
     Telemetry.otelServiceVersion := "0.0.0";
     Telemetry.otelExportIntervalMs := 60000 |}.

Definition pristine : Telemetry.Global :=
  {| Telemetry.__otel_sdk := None; Telemetry.constructed := 0; Telemetry.logged := [] |}.

End Examples.

(** ** Vocabulary of the statements about [getSummary] *)

(** When the upstream's answer, or the break of the exchange, arrives. *)
Definition latencyOf (u : Upstream) : Z :=
  match u with
  | Responds latency _ _ => latency
  | Breaks latency _ _ => latency
  end.

(** The error of a failed upstream call, by the way the call failed: the
    upstream returned a status outside 2xx, the exchange broke, or no
    answer had come when the timeout expired. *)
Inductive FetchFailed (timeoutMs : Z) : Upstream -> Thrown -> Prop :=
  | BadStatus (latency code : Z) (body : JsValue) :
      latency < timeoutMs ->
      validateStatus code = false ->
      FetchFailed timeoutMs (Responds latency code body)
        (ErrorObject "AxiosError" ("Request failed with status code " ++ pretty code))
  | NetworkError (latency : Z) (name message : string) :
      latency < timeoutMs ->
      FetchFailed timeoutMs (Breaks latency name message) (ErrorObject name message)
  | TimedOut (u : Upstream) :
      timeoutMs <= latencyOf u ->
      FetchFailed timeoutMs u (ErrorObject "TimeoutError" "Timeout has occurred").

(** The upstream call issued at world [w] fails: a status outside 2xx, a
    broken exchange, or no answer before the configured timeout. *)
Definition upstreamFails (this : DefaultGitHubStatusProvider.t) (w : World) : bool :=
  let appConfig := DefaultGitHubStatusProvider.appConfig this in
  match DefaultGitHubStatusProvider.http this (githubStatusUrl appConfig) (now w) with
  | Responds latency code _ =>
      (githubStatusTimeoutMs appConfig <=? latency) || negb (validateStatus code)
  | Breaks _ _ _ => true
  end.

(** The upstream's behaviour for the request [getSummary] sends at [w]. *)
Definition upstreamAt (this : DefaultGitHubStatusProvider.t) (w : World) : Upstream :=
  DefaultGitHubStatusProvider.http this
    (githubStatusUrl (DefaultGitHubStatusProvider.appConfig this)) (now w).

(** The world once the cache has been read and the request sent. *)
Definition requested (this : DefaultGitHubStatusProvider.t) (w : World) : World :=
  record (HttpGet (githubStatusUrl (DefaultGitHubStatusProvider.appConfig this)))
    (record (CacheGet DefaultGitHubStatusProvider.summaryKey) w).

(** The awaited expression of the miss branch: the request, bounded by the
    timeout. *)
Definition fetchSummary (this : DefaultGitHubStatusProvider.t) : Async AxiosResponse :=
  firstValueFrom
    (timeout (githubStatusTimeoutMs (DefaultGitHubStatusProvider.appConfig this))
       (httpGet (DefaultGitHubStatusProvider.http this)
          (githubStatusUrl (DefaultGitHubStatusProvider.appConfig this)))).

(** The TTL handed to the cache: the number the code computes as seconds. *)
Definition cacheTtlSeconds (this : DefaultGitHubStatusProvider.t) : Z :=
  Math_ceil_div (githubStatusCacheTtlMs (DefaultGitHubStatusProvider.appConfig this)) 1000.

(** The three ways a call of [getSummary] at world [w] can go. *)
Inductive Served (this : DefaultGitHubStatusProvider.t) (w : World)
  : Outcome JsValue * World -> Prop :=
  | FromCache :
      truthy (CacheManager.peek DefaultGitHubStatusProvider.summaryKey w) = true ->
      Served this w
        (Return (CacheManager.peek DefaultGitHubStatusProvider.summaryKey w),
         record (CacheGet DefaultGitHubStatusProvider.summaryKey) w)
  | Fetched (latency code : Z) (body : JsValue) :
      truthy (CacheManager.peek DefaultGitHubStatusProvider.summaryKey w) = false ->
      DefaultGitHubStatusProvider.http this
        (githubStatusUrl (DefaultGitHubStatusProvider.appConfig this)) (now w)
        = Responds latency code body ->
      latency < githubStatusTimeoutMs (DefaultGitHubStatusProvider.appConfig this) ->
      validateStatus code = true ->
      Served this w
        (Return body,
         record (CacheSet DefaultGitHubStatusProvider.summaryKey body (cacheTtlSeconds this))
           (CacheManager.store DefaultGitHubStatusProvider.summaryKey body (cacheTtlSeconds this)
              (advance latency (requested this w))))
  | Failed (e : Thrown) (waited : Z) :
      truthy (CacheManager.peek DefaultGitHubStatusProvider.summaryKey w) = false ->
      upstreamFails this w = true ->
      fetchSummary this (record (CacheGet DefaultGitHubStatusProvider.summaryKey) w)
      = (Throw e, advance waited (requested this w)) ->
      FetchFailed (githubStatusTimeoutMs (DefaultGitHubStatusProvider.appConfig this))
        (upstreamAt this w) e ->
      Served this w (Throw e, advance waited (requested this w)).

(** ** app.config.ts: [toBoolean] *)

Module Transforms.

(** [toLowerCase] on the ASCII capitals; every other byte is kept. No
    character outside ASCII lowers to one of the letters of [true], so the
    comparison below is the one JavaScript makes. *)
Definition lowerAscii (c : ascii) : ascii :=
  let n := N_of_ascii c in
  if ((65 <=? n) && (n <=? 90))%N then ascii_of_N (n + 32) else c.

Fixpoint toLowerCase (s : string) : string :=
  match s with
  | EmptyString => EmptyString
  | String c rest => String (lowerAscii c) (toLowerCase rest)
  end.

(** [({ value }) => String(value).toLowerCase() === 'true'] *)
Definition toBoolean (value : JsValue) : bool :=
  String.eqb (toLowerCase (toString value)) "true".

End Transforms.

(** ** telemetry.provider.ts: the provider's lifecycle hooks *)

Module Lifecycle.

(** The process as the hooks see it: the globals of [Telemetry], and the
    identities of the SDKs on which [start()] and [shutdown()] were called,
    in call order. *)
Record Process : Type := {
  globals : Telemetry.Global;
  startCalls : list nat;
  shutdownCalls : list nat
}.

Definition logLine (line : string) (p : Process) : Process :=
  {| globals := Telemetry.log line (globals p);
     startCalls := startCalls p;
     shutdownCalls := shutdownCalls p |}.

(** [TelemetryProvider.initFromConfig], run in the process. *)
Definition initFromConfig (cfg : Telemetry.TelemetryConfig) (p : Process)
  : option Telemetry.NodeSDK * Process :=
  let (sdk, g) := Telemetry.initFromConfig cfg (globals p) in
  (sdk, {| globals := g; startCalls := startCalls p; shutdownCalls := shutdownCalls p |}).

(** [global.__otel_sdk?.start()] *)
Definition startStored (p : Process) : Process :=
  match Telemetry.__otel_sdk (globals p) with
  | Some sdk =>
      {| globals := globals p;
         startCalls := startCalls p ++ [Telemetry.instanceId sdk];
         shutdownCalls := shutdownCalls p |}
  | None => p
  end.

Definition onModuleInit (appConfig : AppConfig) (p : Process) : Process :=
  if negb (telemetryEnabled appConfig)
  then logLine "Telemetry disabled by configuration; not starting SDK" p
  else
    logLine ("Telemetry SDK started (service=" ++ otelServiceName appConfig
             ++ "@" ++ otelServiceVersion appConfig ++ ")")
      (startStored p).

(** [shutdown] says how the SDK's [shutdown()] promise settles. *)
Definition onModuleDestroy (shutdown : Telemetry.NodeSDK -> Outcome unit) (p : Process)
  : Outcome unit * Process :=
  match Telemetry.__otel_sdk (globals p) with
  | Some sdk =>
      let p' := {| globals := globals p;
                   startCalls := startCalls p;
                   shutdownCalls := shutdownCalls p ++ [Telemetry.instanceId sdk] |} in
      match shutdown sdk with
      | Return _ => (Return tt, logLine "Telemetry SDK shut down" p')
      | Throw e => (Throw e, p')
      end
  | None => (Return tt, p)
  end.

End Lifecycle.

(** ** telemetry.provider.ts: [count] *)

Module Metrics.

(** One [counter.add(value, attributes)] on a counter created by
    [getMeter().createCounter(name, metricOptions)]. *)
Record Addition : Type := {
  meterName : string;
  counterName : string;
  metricOptions : option (list (string * string));
  amount : Z;
  attributes : list (string * string)
}.

(** [count(name, metricOptions?, value = 1, attributes?)] *)
Definition count (appConfig : AppConfig) (name : string)
    (metricOptions : option (list (string * string))) (value : option Z)
    (attributes : option (list (string * string))) (recorded : list Addition)
  : list Addition :=
  recorded ++ [{| meterName := otelServiceName appConfig;
                  counterName := name;
                  metricOptions := metricOptions;
                  amount := default 1 value;
                  attributes := default [] attributes |}].

End Metrics.

(** ** app/routes/home.tsx: the loader *)

Module HomeRoute.

(** What the loader acts on: the world of the status provider, the metric
    additions and the lines written with [Logger.log]. *)
Record Runtime : Type := {
  world : World;
  additions : list Metrics.Addition;
  logLines : list (string * string)
}.

(** The loader's data, [{ summary }], and the span it ran under. *)
Record Loaded : Type := {
  summary : Telemetry.Completion JsValue;
  span : Telemetry.Span
}.

Definition loader (appConfig : AppConfig) (githubStatusProvider : GitHubStatusProvider)
    (rt : Runtime) : Loaded * Runtime :=
  let logged : list (string * string) :=
    (logLines rt ++ [("Loading GitHub status summary in Home loader", "home.tsx")])%list in
  let counted :=
    Metrics.count appConfig "home_loader_calls"
      (Some [("description", "Number of times the home loader was called")])
      None None (additions rt) in
  (* the async arrow function always hands back a promise *)
  let (settled, w) := getSummary githubStatusProvider (world rt) in
  let (summary, span) :=
    Telemetry.withSpan appConfig "getGitHubStatusSummary"
      (fun span => (Telemetry.Promised settled, span)) None in
  ({| summary := summary; span := span |},
   {| world := w; additions := counted; logLines := logged |}).

End HomeRoute.

(** ** app.bootstrap.ts: request plumbing *)

Module Bootstrap.

(** What [console.warn] or [console.error] is bound to: a function of the
    runtime (or of anyone else), or one of the two closures
    [wrapWithNestLogger] installs. *)
Inductive ConsoleFn : Type :=
  | Foreign (name : string)
  | ToLoggerWarn (loggerContext : string)
  | ToLoggerError (loggerContext : string).

Inductive Level : Type := Log | Warn | Error.

(** The text of a logger line: a string built by the code, or
    [error.stack ?? error.message], whose choice is the runtime's. *)
Inductive LogText : Type :=
  | Plain (text : string)
  | StackOrMessage (error : Thrown) (message : string).

(** What leaves the server: lines of Nest's [Logger], calls of a foreign
    console function, and calls of express' [next]. *)
Inductive Output : Type :=
  | Logged (level : Level) (text : LogText) (context : string)
  | Printed (by_ : string) (args : list JsValue)
  | Next (error : option Thrown).

Record Server : Type := {
  consoleWarn : ConsoleFn;
  consoleError : ConsoleFn;
  output : list Output
}.

Record Request : Type := { method : string; originalUrl : string; path : string }.

Definition emit (o : Output) (s : Server) : Server :=
  {| consoleWarn := consoleWarn s; consoleError := consoleError s; output := output s ++ [o] |}.

(** [args.map(String).join(' ')] *)
Definition joinArgs (args : list JsValue) : string :=
  String.concat " " (List.map toString args).

(** Calling whatever a console slot is bound to. *)
Definition call (fn : ConsoleFn) (args : list JsValue) (s : Server) : Server :=
  match fn with
  | Foreign name => emit (Printed name args) s
  | ToLoggerWarn loggerContext => emit (Logged Warn (Plain (joinArgs args)) loggerContext) s
  | ToLoggerError loggerContext => emit (Logged Error (Plain (joinArgs args)) loggerContext) s
  end.

(** [console.warn(...args)] and [console.error(...args)] *)
Definition console_warn (args : list JsValue) (s : Server) : Server :=
  call (consoleWarn s) args s.

Definition console_error (args : list JsValue) (s : Server) : Server :=
  call (consoleError s) args s.

Definition bind (warn error : ConsoleFn) (s : Server) : Server :=
  {| consoleWarn := warn; consoleError := error; output := output s |}.

(** A request handler runs on the server and settles; the response object
    and [next] are part of the server it acts on. *)
Definition RequestHandler : Type := Request -> Server -> Outcome unit * Server.

(** [error instanceof Error ? (error.stack ?? error.message) : String(error)] *)
Definition describe (error : Thrown) : LogText :=
  match error with
  | ErrorObject _ message => StackOrMessage error message
  | _ => Plain (stringOf error)
  end.

Definition wrapWithNestLogger (handler : RequestHandler) (loggerContext : string)
  : RequestHandler :=
  fun req s =>
    let s := emit (Logged Log (Plain (method req ++ " " ++ originalUrl req)) loggerContext) s in
    let origWarn := consoleWarn s in
    let origError := consoleError s in
    let s := bind (ToLoggerWarn loggerContext) (ToLoggerError loggerContext) s in
    match handler req s with
    | (Return result, s) => (Return result, bind origWarn origError s)
    | (Throw error, s) =>
        let s := emit (Logged Error (describe error) loggerContext) s in
        let s := emit (Next (Some error)) s in
        (Return tt, bind origWarn origError s)
    end.

(** The middleware [registerSsrFallback] installs. *)
Definition ssrFallback (handler : RequestHandler) : RequestHandler :=
  fun req s =>
    if String.prefix "/api" (path req)
    then (Return tt, emit (Next None) s)
    else handler req s.

(** The fallback [registerProductionRoutes] registers. *)
Definition productionFallback (requestHandler : RequestHandler) : RequestHandler :=
  ssrFallback (fun req s => wrapWithNestLogger requestHandler "ReactRouter" req s).

End Bootstrap.

(** ** Vocabulary of the further statements *)

(** What the four decorators of [GitHubConfig] ask of an instance. *)
Definition acceptable (isURL : string -> bool) (instance : Config.GitHubConfig) : Prop :=
  isURL (Config.githubStatusUrl instance) = true
  /\ (exists z : Z, Config.githubStatusCacheTtlMs instance = Config.Integer z /\ 0 <= z)
  /\ (Config.githubStatusProviderType instance = "mock"
      \/ Config.githubStatusProviderType instance = "default")
  /\ (exists z : Z, Config.githubStatusTimeoutMs instance = Config.Integer z /\ 0 <= z).

(** The variables the [GitHubConfig] class exposes. *)
Definition exposedNames : list string :=
  ["GITHUB_STATUS_URL"; "GITHUB_STATUS_CACHE_TTL_MS";
   "GITHUB_STATUS_PROVIDER_TYPE"; "GITHUB_STATUS_TIMEOUT_MS"].

(** The spellings of [true], letter case aside. *)
Definition spellsTrue (s : string) : Prop :=
  exists t r u e : ascii,
    s = String t (String r (String u (String e EmptyString)))
    /\ (t = "t"%char \/ t = "T"%char)
    /\ (r = "r"%char \/ r = "R"%char)
    /\ (u = "u"%char \/ u = "U"%char)
    /\ (e = "e"%char \/ e = "E"%char).

(** The SDK that [initFromConfig] constructs from [cfg] as the process's
    [id]-th one. *)
Definition constructedFrom (cfg : Telemetry.TelemetryConfig) (id : nat) : Telemetry.NodeSDK :=
  {| Telemetry.instanceId := id;
     Telemetry.metricExporterUrl := Telemetry.otelExporterOtlpEndpoint cfg ++ "/v1/metrics";
     Telemetry.exportIntervalMillis := Telemetry.otelExportIntervalMs cfg;
     Telemetry.resourceServiceName := Telemetry.otelServiceName cfg;
     Telemetry.resourceServiceVersion := Telemetry.otelServiceVersion cfg;
     Telemetry.traceExporterUrl := Telemetry.otelExporterOtlpEndpoint cfg ++ "/v1/traces" |}.


(** ** Facts about the world *)

Section WorldFacts.

Implicit Types (w : World) (ev : Event).

Lemma upstreamCalls_record ev w :
  upstreamCalls (record ev w)
  = (upstreamCalls w + (if isHttpGet ev then 1 else 0))%nat.
Proof.
  unfold upstreamCalls, record; simpl.
  rewrite List.filter_app, List.length_app; simpl.
  destruct (isHttpGet ev); reflexivity.
Qed.

Lemma cacheWrites_record ev w :
  cacheWrites (record ev w)
  = (cacheWrites w + (if isCacheSet ev then 1 else 0))%nat.
Proof.
  unfold cacheWrites, record; simpl.
  rewrite List.filter_app, List.length_app; simpl.
  destruct (isCacheSet ev); reflexivity.
Qed.

Lemma upstreamCalls_advance ms w : upstreamCalls (advance ms w) = upstreamCalls w.
Proof. reflexivity. Qed.

Lemma cacheWrites_advance ms w : cacheWrites (advance ms w) = cacheWrites w.
Proof. reflexivity. Qed.

Lemma upstreamCalls_store key v ttl w :
  upstreamCalls (CacheManager.store key v ttl w) = upstreamCalls w.
Proof. reflexivity. Qed.

Lemma upstreamCalls_requested this w :
  upstreamCalls (requested this w) = S (upstreamCalls w).
Proof.
  unfold requested. rewrite !upstreamCalls_record; simpl. lia.
Qed.

Lemma cacheWrites_requested this w : cacheWrites (requested this w) = cacheWrites w.
Proof.
  unfold requested. rewrite !cacheWrites_record; simpl. lia.
Qed.

Lemma cache_requested this w : cache (requested this w) = cache w.
Proof. reflexivity. Qed.

(** Reading back what was just stored, [dt] milliseconds later. *)
Lemma peek_stored key v ttl ev dt w :
  CacheManager.peek key (advance dt (record ev (CacheManager.store key v ttl w)))
  = if (ttl =? 0) || (dt <=? ttl) then v else JUndefined.
Proof.
  unfold CacheManager.peek, CacheManager.store, advance, record; simpl.
  rewrite lookup_insert_eq.
  unfold CacheManager.live, CacheManager.expiry; simpl.
  destruct (ttl =? 0); simpl; [reflexivity |].
  destruct (dt <=? ttl) eqn:Hdt;
    [ rewrite (proj2 (Z.leb_le _ _)) | rewrite (proj2 (Z.leb_gt _ _)) ];
    try reflexivity;
    [apply Z.leb_le in Hdt | apply Z.leb_gt in Hdt]; lia.
Qed.

End WorldFacts.

(** ** [getSummary], path by path *)

Section GetSummaryPaths.

Variable this : DefaultGitHubStatusProvider.t.

Lemma getSummary_served (w : World) :
  Served this w (DefaultGitHubStatusProvider.getSummary this w).
Proof.
  unfold DefaultGitHubStatusProvider.getSummary, mbind, Async_bind, mret, Async_ret,
    CacheManager.get.
  destruct (truthy (CacheManager.peek "github-status:summary" w)) eqn:Hhit.
  - rewrite <- Hhit at 1. rewrite Hhit. now apply FromCache.
  - unfold firstValueFrom, timeout, httpGet, CacheManager.set; simpl.
    destruct (DefaultGitHubStatusProvider.http this _ (now w))
      as [latency code body | latency name message] eqn:Hup.
    + destruct (validateStatus code) eqn:Hcode; simpl;
        destruct (githubStatusTimeoutMs _ <=? latency) eqn:Hlate; simpl.
      * apply (Failed this w TimeoutError); auto.
        -- unfold upstreamFails. rewrite Hup, Hlate. reflexivity.
        -- unfold fetchSummary, firstValueFrom, timeout, httpGet; simpl.
           rewrite Hup, Hcode; simpl. now rewrite Hlate.
        -- apply TimedOut. unfold upstreamAt. rewrite Hup. simpl.
           now apply Z.leb_le.
      * apply (Fetched this w latency code body); auto.
        apply Z.leb_gt in Hlate. lia.
      * apply (Failed this w TimeoutError); auto.
        -- unfold upstreamFails. rewrite Hup, Hlate. reflexivity.
        -- unfold fetchSummary, firstValueFrom, timeout, httpGet; simpl.
           rewrite Hup, Hcode; simpl. now rewrite Hlate.
        -- apply TimedOut. unfold upstreamAt. rewrite Hup. simpl.
           now apply Z.leb_le.
      * apply (Failed this w (AxiosError _) latency); auto.
        -- unfold upstreamFails. rewrite Hup, Hcode, Hlate. reflexivity.
        -- unfold fetchSummary, firstValueFrom, timeout, httpGet; simpl.
           rewrite Hup, Hcode; simpl. now rewrite Hlate.
        -- unfold upstreamAt. rewrite Hup. apply BadStatus; [| assumption].
           now apply Z.leb_gt.
    + simpl. destruct (githubStatusTimeoutMs _ <=? latency) eqn:Hlate; simpl.
      * apply (Failed this w TimeoutError); auto.
        -- unfold upstreamFails. rewrite Hup. reflexivity.
        -- unfold fetchSummary, firstValueFrom, timeout, httpGet; simpl.
           rewrite Hup; simpl. now rewrite Hlate.
        -- apply TimedOut. unfold upstreamAt. rewrite Hup. simpl.
           now apply Z.leb_le.
      * apply (Failed this w (ErrorObject name message) latency); auto.
        -- unfold upstreamFails. rewrite Hup. reflexivity.
        -- unfold fetchSummary, firstValueFrom, timeout, httpGet; simpl.
           rewrite Hup; simpl. now rewrite Hlate.
        -- unfold upstreamAt. rewrite Hup. apply NetworkError.
           now apply Z.leb_gt.
Qed.

End GetSummaryPaths.

(** ** Staleness of the cached summary *)

Section Staleness.

Variable this : DefaultGitHubStatusProvider.t.

(** After a fetch, the next call either reads the cache or goes upstream
    again; the trace tells which. *)
Lemma getSummary_upstreamCalls (w : World) :
  let w' := snd (DefaultGitHubStatusProvider.getSummary this w) in
  (truthy (CacheManager.peek DefaultGitHubStatusProvider.summaryKey w) = true
   /\ upstreamCalls w' = upstreamCalls w)
  \/ (truthy (CacheManager.peek DefaultGitHubStatusProvider.summaryKey w) = false
      /\ upstreamCalls w' = S (upstreamCalls w)).
Proof.
  simpl. destruct (getSummary_served this w); simpl.
  - left. split; [assumption |]. rewrite upstreamCalls_record; simpl. lia.
  - right. split; [assumption |].
    rewrite upstreamCalls_record, upstreamCalls_store, upstreamCalls_advance,
      upstreamCalls_requested; simpl. lia.
  - right. split; [assumption |].
    now rewrite upstreamCalls_advance, upstreamCalls_requested.
Qed.

(** A call that resolves after going upstream has stored what it returns,
    with the number [cacheTtlSeconds] as the TTL: the cache serves it for
    that many milliseconds from the instant the call resolved, and without
    end when the number is zero. *)
Lemma getSummary_fetch_stores (w0 w1 : World) (summary : JsValue) :
  DefaultGitHubStatusProvider.getSummary this w0 = (Return summary, w1) ->
  upstreamCalls w1 = S (upstreamCalls w0) ->
  forall dt,
    CacheManager.peek DefaultGitHubStatusProvider.summaryKey (advance dt w1)
    = if (cacheTtlSeconds this =? 0) || (dt <=? cacheTtlSeconds this)
      then summary else JUndefined.
Proof.
  intros Hcall Hfetch dt.
  pose proof (getSummary_served this w0) as Hpath. rewrite Hcall in Hpath.
  inversion Hpath as [Hhit Hr | latency code body Hmiss Hup Hlat Hcode Hr | ]; subst.
  - rewrite upstreamCalls_record in Hfetch; simpl in Hfetch. lia.
  - apply peek_stored.
Qed.

(** A summary, being an object, passes the truthiness test. *)
Lemma summary_is_truthy (summary : JsValue) :
  isRecord summary = true -> truthy summary = true.
Proof. destruct summary; try discriminate; reflexivity. Qed.

(** A call that finds a truthy value in the cache returns it after the
    cache read alone. *)
Lemma getSummary_hit (w : World) :
  truthy (CacheManager.peek DefaultGitHubStatusProvider.summaryKey w) = true ->
  DefaultGitHubStatusProvider.getSummary this w
  = (Return (CacheManager.peek DefaultGitHubStatusProvider.summaryKey w),
     record (CacheGet DefaultGitHubStatusProvider.summaryKey) w).
Proof.
  intros Hhit.
  destruct (getSummary_served this w) as [_ | ? ? ? Hmiss | ? ? Hmiss];
    try (rewrite Hhit in Hmiss; discriminate).
  reflexivity.
Qed.

(** Once more milliseconds have passed than the number stored as the TTL
    (when that number is not zero), the next call goes upstream. *)
Lemma getSummary_expired (w0 w1 : World) (summary : JsValue) (dt : Z) :
  DefaultGitHubStatusProvider.getSummary this w0 = (Return summary, w1) ->
  upstreamCalls w1 = S (upstreamCalls w0) ->
  cacheTtlSeconds this <> 0 ->
  cacheTtlSeconds this < dt ->
  upstreamCalls (snd (DefaultGitHubStatusProvider.getSummary this (advance dt w1)))
  = S (upstreamCalls w1).
Proof.
  intros Hfirst Hfetch Hnonzero Hexpired.
  pose proof (getSummary_fetch_stores w0 w1 summary Hfirst Hfetch dt) as Hpeek.
  rewrite (proj2 (Z.eqb_neq _ _) Hnonzero), (proj2 (Z.leb_gt _ _) Hexpired) in Hpeek.
  destruct (getSummary_upstreamCalls (advance dt w1)) as [[Hhit _] | [_ Hmore]].
  - rewrite Hpeek in Hhit. discriminate.
  - now rewrite Hmore, upstreamCalls_advance.
Qed.

End Staleness.

(** ** Statements about [DefaultGitHubStatusProvider.getSummary] *)

(** C1 does not hold of the code at [cacheTtlMs = 0], a value the
    configuration accepts: the code then hands a TTL of zero to the cache,
    which keeps such an entry without expiry. After a call that fetched a
    summary, every later call, however long after, is served that summary
    from the cache and sends no upstream request. *)
Theorem zero_ttl_summary_is_served_forever
    (this : DefaultGitHubStatusProvider.t) (w0 w1 : World) (summary : JsValue) (dt : Z) :
  githubStatusCacheTtlMs (DefaultGitHubStatusProvider.appConfig this) = 0 ->
  DefaultGitHubStatusProvider.getSummary this w0 = (Return summary, w1) ->
  upstreamCalls w1 = S (upstreamCalls w0) ->
  isRecord summary = true ->
  DefaultGitHubStatusProvider.getSummary this (advance dt w1)
  = (Return summary, record (CacheGet DefaultGitHubStatusProvider.summaryKey) (advance dt w1))
  /\ upstreamCalls (snd (DefaultGitHubStatusProvider.getSummary this (advance dt w1)))
     = upstreamCalls w1.
Proof.
  intros Hzero Hfirst Hfetch Hobject.
  pose proof (getSummary_fetch_stores this w0 w1 summary Hfirst Hfetch dt) as Hpeek.
  assert (cacheTtlSeconds this = 0) as Hstored
      by (unfold cacheTtlSeconds; rewrite Hzero; reflexivity).
  rewrite Hstored in Hpeek. simpl in Hpeek.
  assert (truthy (CacheManager.peek DefaultGitHubStatusProvider.summaryKey (advance dt w1))
          = true) as Hhit
      by (rewrite Hpeek; now apply summary_is_truthy).
  rewrite (getSummary_hit this _ Hhit), Hpeek.
  split; [reflexivity |]. simpl.
  rewrite upstreamCalls_record, upstreamCalls_advance; simpl. lia.
Qed.

Lemma zero_ttl_summary_is_served_forever_witness :
  githubStatusCacheTtlMs
    (DefaultGitHubStatusProvider.appConfig (Examples.providerWith 0 Examples.healthy)) = 0
  /\ fst (DefaultGitHubStatusProvider.getSummary (Examples.providerWith 0 Examples.healthy)
            (advance 86400000
               (snd (DefaultGitHubStatusProvider.getSummary
                       (Examples.providerWith 0 Examples.healthy) Examples.boot))))
     = Return Examples.operational
  /\ upstreamCalls
       (snd (DefaultGitHubStatusProvider.getSummary (Examples.providerWith 0 Examples.healthy)
               (advance 86400000
                  (snd (DefaultGitHubStatusProvider.getSummary
                          (Examples.providerWith 0 Examples.healthy) Examples.boot)))))
     = 1%nat.
Proof.
  split; [reflexivity |].
  destruct (zero_ttl_summary_is_served_forever
              (Examples.providerWith 0 Examples.healthy)
              Examples.boot
              (snd (DefaultGitHubStatusProvider.getSummary
                      (Examples.providerWith 0 Examples.healthy) Examples.boot))
              Examples.operational 86400000 eq_refl eq_refl eq_refl eq_refl)
    as [Hcall Hcount].
  split; [exact (f_equal fst Hcall) | exact Hcount].
Defined.

(** C2: whenever [getSummary] goes upstream (the cache holds no usable
    summary) and the upstream call fails, the promise rejects, and it
    rejects with the very error of the HTTP pipeline, uncaught: axios'
    [Request failed with status code N] for a status outside 2xx, the
    network layer's error for a broken exchange, rxjs' [TimeoutError] when
    no answer came within the timeout. This is the kind the specification
    calls FetchFailed. *)
Theorem getSummary_rejects_with_FetchFailed
    (this : DefaultGitHubStatusProvider.t) (w : World) :
  truthy (CacheManager.peek DefaultGitHubStatusProvider.summaryKey w) = false ->
  upstreamFails this w = true ->
  exists (e : Thrown) (w' : World),
    DefaultGitHubStatusProvider.getSummary this w = (Throw e, w')
    /\ fetchSummary this (record (CacheGet DefaultGitHubStatusProvider.summaryKey) w)
       = (Throw e, w')
    /\ FetchFailed (githubStatusTimeoutMs (DefaultGitHubStatusProvider.appConfig this))
         (upstreamAt this w) e
    /\ upstreamCalls w' = S (upstreamCalls w).
Proof.
  intros Hmiss Hfails.
  destruct (getSummary_served this w)
    as [Hhit | latency code body _ Hup Hlat Hcode | e waited _ _ Hfetch He].
  - rewrite Hmiss in Hhit. discriminate.
  - unfold upstreamFails in Hfails. rewrite Hup, Hcode in Hfails.
    apply orb_true_iff in Hfails as [Hlate | Hbad]; [| discriminate].
    apply Z.leb_le in Hlate. lia.
  - exists e, (advance waited (requested this w)).
    repeat split; try assumption.
    now rewrite upstreamCalls_advance, upstreamCalls_requested.
Qed.

Lemma getSummary_rejects_with_FetchFailed_witness :
  truthy (CacheManager.peek DefaultGitHubStatusProvider.summaryKey Examples.boot) = false
  /\ upstreamFails (Examples.providerWith 60000 Examples.offline) Examples.boot = true
  /\ exists (e : Thrown) (w' : World),
       DefaultGitHubStatusProvider.getSummary
         (Examples.providerWith 60000 Examples.offline) Examples.boot = (Throw e, w')
       /\ fetchSummary (Examples.providerWith 60000 Examples.offline)
            (record (CacheGet DefaultGitHubStatusProvider.summaryKey) Examples.boot)
          = (Throw e, w')
       /\ FetchFailed 2000 (Breaks 15 "Error" "getaddrinfo ENOTFOUND www.githubstatus.com") e
       /\ upstreamCalls w' = S (upstreamCalls Examples.boot).
Proof.
  split; [reflexivity |]. split; [reflexivity |].
  apply (getSummary_rejects_with_FetchFailed
           (Examples.providerWith 60000 Examples.offline) Examples.boot);
    reflexivity.
Defined.

(** C6: whenever [getSummary] goes upstream and the upstream call fails, the
    call rejects without writing to the cache: no [set] is issued and the
    entries of the cache are those from before the call. *)
Theorem getSummary_failure_writes_nothing
    (this : DefaultGitHubStatusProvider.t) (w : World) :
  truthy (CacheManager.peek DefaultGitHubStatusProvider.summaryKey w) = false ->
  upstreamFails this w = true ->
  resolved (fst (DefaultGitHubStatusProvider.getSummary this w)) = false
  /\ cache (snd (DefaultGitHubStatusProvider.getSummary this w)) = cache w
  /\ cacheWrites (snd (DefaultGitHubStatusProvider.getSummary this w)) = cacheWrites w.
Proof.
  intros Hmiss Hfails.
  destruct (getSummary_served this w)
    as [Hhit | latency code body _ Hup Hlat Hcode | e waited _ _ _ He]; simpl.
  - rewrite Hmiss in Hhit. discriminate.
  - unfold upstreamFails in Hfails. rewrite Hup, Hcode in Hfails.
    apply orb_true_iff in Hfails as [Hlate | Hbad]; [| discriminate].
    apply Z.leb_le in Hlate. lia.
  - repeat split.
    now rewrite cacheWrites_advance, cacheWrites_requested.
Qed.

Lemma getSummary_failure_writes_nothing_witness :
  truthy (CacheManager.peek DefaultGitHubStatusProvider.summaryKey Examples.boot) = false
  /\ upstreamFails (Examples.providerWith 60000 Examples.slow) Examples.boot = true
  /\ resolved (fst (DefaultGitHubStatusProvider.getSummary
                      (Examples.providerWith 60000 Examples.slow) Examples.boot)) = false
  /\ cache (snd (DefaultGitHubStatusProvider.getSummary
                   (Examples.providerWith 60000 Examples.slow) Examples.boot))
     = cache Examples.boot
  /\ cacheWrites (snd (DefaultGitHubStatusProvider.getSummary
                         (Examples.providerWith 60000 Examples.slow) Examples.boot))
     = cacheWrites Examples.boot.
Proof.
  split; [reflexivity |]. split; [reflexivity |].
  apply (getSummary_failure_writes_nothing
           (Examples.providerWith 60000 Examples.slow) Examples.boot);
    reflexivity.
Defined.

(** C7 does not hold of the code in its second half. The first half does:
    a cached summary that has not expired is returned without an upstream
    request. But the number the code stores as
    the TTL, [Math.ceil(cacheTtlMs / 1000)], is read by the cache in
    milliseconds, so the entry is gone that many milliseconds after the
    fetch: a second call later than that, though still within [cacheTtlMs]
    of the fetch, goes upstream again, and the two calls send two requests. *)
Theorem second_call_within_cacheTtlMs_goes_upstream
    (this : DefaultGitHubStatusProvider.t) (w0 w1 : World) (summary : JsValue) (dt : Z) :
  DefaultGitHubStatusProvider.getSummary this w0 = (Return summary, w1) ->
  upstreamCalls w1 = S (upstreamCalls w0) ->
  0 < cacheTtlSeconds this < dt ->
  dt < githubStatusCacheTtlMs (DefaultGitHubStatusProvider.appConfig this) ->
  upstreamCalls (snd (DefaultGitHubStatusProvider.getSummary this (advance dt w1)))
  = S (S (upstreamCalls w0)).
Proof.
  intros Hfirst Hfetch [Hpositive Hexpired] _.
  rewrite (getSummary_expired this w0 w1 summary dt Hfirst Hfetch) by lia.
  now rewrite Hfetch.
Qed.

Lemma second_call_within_cacheTtlMs_goes_upstream_witness :
  0 < cacheTtlSeconds (Examples.providerWith 60000 Examples.healthy) < 1000
  /\ 1000 < githubStatusCacheTtlMs
              (DefaultGitHubStatusProvider.appConfig
                 (Examples.providerWith 60000 Examples.healthy))
  /\ upstreamCalls
       (snd (DefaultGitHubStatusProvider.getSummary
               (Examples.providerWith 60000 Examples.healthy)
               (advance 1000
                  (snd (DefaultGitHubStatusProvider.getSummary
                          (Examples.providerWith 60000 Examples.healthy) Examples.boot)))))
     = 2%nat.
Proof.
  split; [split; reflexivity |]. split; [reflexivity |].
  exact (second_call_within_cacheTtlMs_goes_upstream
           (Examples.providerWith 60000 Examples.healthy)
           Examples.boot
           (snd (DefaultGitHubStatusProvider.getSummary
                   (Examples.providerWith 60000 Examples.healthy) Examples.boot))
           Examples.operational 1000 eq_refl eq_refl
           (conj eq_refl eq_refl) eq_refl).
Defined.

(** ** Loading the GitHub configuration slice *)

Section ConfigLoading.

Variable Number : string -> Config.JsNumber.
Variable isURL : string -> bool.

Implicit Types (source : gmap string string) (instance : Config.GitHubConfig).

(** Setting a variable to the initializer's text changes nothing for a
    property that is exposed without conversion. *)
Lemma plainToInstance_default_url source :
  source !! "GITHUB_STATUS_URL" = None ->
  Config.plainToInstance Number
    (<["GITHUB_STATUS_URL" := "https://www.githubstatus.com/api/v2/summary.json"]> source)
  = Config.plainToInstance Number source.
Proof.
  intros Habsent. unfold Config.plainToInstance, Config.expose.
  rewrite lookup_insert_eq, Habsent.
  rewrite !lookup_insert_ne by discriminate.
  reflexivity.
Qed.

Lemma validateSync_nil instance :
  Config.check_githubStatusUrl isURL instance = [] ->
  Config.check_githubStatusCacheTtlMs instance = [] ->
  Config.check_githubStatusProviderType instance = [] ->
  Config.check_githubStatusTimeoutMs instance = [] ->
  Config.validateSync isURL instance = [].
Proof.
  intros Hurl Httl Hkind Htimeout. unfold Config.validateSync.
  rewrite Hurl, Httl, Hkind, Htimeout. reflexivity.
Qed.

Lemma validateSync_property instance (error : Config.ValidationError) :
  In error (Config.validateSync isURL instance) ->
  Config.property error = "githubStatusUrl" ->
  Config.check_githubStatusUrl isURL instance <> [].
Proof.
  unfold Config.validateSync. intros Hin Hproperty.
  apply List.filter_In in Hin as [Hin Hviolated].
  simpl in Hin.
  destruct Hin as [<- | [<- | [<- | [<- | []]]]]; simpl in *; try discriminate.
  destruct (Config.check_githubStatusUrl isURL instance); [discriminate | discriminate].
Qed.

(** The accepted provider kinds, as [IsIn] decides them. *)
Lemma check_githubStatusProviderType_nil instance :
  Config.check_githubStatusProviderType instance = []
  <-> Config.githubStatusProviderType instance = "mock"
      \/ Config.githubStatusProviderType instance = "default".
Proof.
  unfold Config.check_githubStatusProviderType, Config.violated, Config.isIn; simpl.
  destruct (String.eqb_spec (Config.githubStatusProviderType instance) "mock") as [-> | Hmock];
    simpl; [intuition |].
  destruct (String.eqb_spec (Config.githubStatusProviderType instance) "default")
    as [-> | Hdefault]; simpl; [intuition |].
  split; [discriminate | intros [? | ?]; contradiction].
Qed.

(** A kind that [IsIn] refuses stops the loading. *)
Lemma validateConfigSlice_unknown_kind source (kind : string) :
  source !! "GITHUB_STATUS_PROVIDER_TYPE" = Some kind ->
  kind <> "mock" -> kind <> "default" ->
  resolved (Config.validateConfigSlice Number isURL source) = false.
Proof.
  intros Hset Hmock Hdefault.
  unfold Config.validateConfigSlice.
  set (instance := Config.plainToInstance Number source).
  assert (Config.githubStatusProviderType instance = kind) as Hkind.
  { unfold instance, Config.plainToInstance, Config.expose; simpl. now rewrite Hset. }
  assert (Config.check_githubStatusProviderType instance <> []) as Hviolated.
  { rewrite check_githubStatusProviderType_nil, Hkind. intros [? | ?]; contradiction. }
  unfold Config.validateSync.
  destruct (Config.check_githubStatusProviderType instance) as [| c cs] eqn:Hcheck;
    [contradiction |].
  destruct (Config.check_githubStatusUrl isURL instance),
    (Config.check_githubStatusCacheTtlMs instance),
    (Config.check_githubStatusTimeoutMs instance); reflexivity.
Qed.

(** A slice that passed validation violates no constraint on the kind. *)
Lemma validateConfigSlice_kind source instance :
  Config.validateConfigSlice Number isURL source = Return instance ->
  Config.githubStatusProviderType instance = "mock"
  \/ Config.githubStatusProviderType instance = "default".
Proof.
  unfold Config.validateConfigSlice. intros Hloaded.
  destruct (0 <? length (Config.validateSync isURL (Config.plainToInstance Number source)))%nat
    eqn:Herrors; [discriminate |].
  injection Hloaded as <-.
  apply check_githubStatusProviderType_nil.
  apply Nat.ltb_ge in Herrors.
  unfold Config.validateSync in Herrors.
  destruct (Config.check_githubStatusProviderType (Config.plainToInstance Number source))
    as [| c cs]; [reflexivity |].
  exfalso.
  destruct (Config.check_githubStatusUrl isURL (Config.plainToInstance Number source)),
    (Config.check_githubStatusCacheTtlMs (Config.plainToInstance Number source)),
    (Config.check_githubStatusTimeoutMs (Config.plainToInstance Number source));
    simpl in Herrors; lia.
Qed.

(** So in a process whose configuration was loaded, the factory finds a
    kind it knows. *)
Lemma loaded_kind_is_selectable source instance (appConfig : AppConfig)
    (Default Mock : Type) (defaultProvider : Default) (mockProvider : Mock) :
  Config.validateConfigSlice Number isURL source = Return instance ->
  carries appConfig instance ->
  resolved (GitHubModule.GitHubStatusProviderFactory appConfig defaultProvider mockProvider)
  = true.
Proof.
  intros Hloaded (_ & _ & Hkind & _).
  unfold GitHubModule.GitHubStatusProviderFactory. rewrite Hkind.
  destruct (validateConfigSlice_kind source instance Hloaded) as [-> | ->]; reflexivity.
Qed.

End ConfigLoading.

(** ** Statements about configuration and provider selection *)

(** C3, as the code has it: when [GITHUB_STATUS_URL] is not set, loading
    does not fail on that account. The slice keeps the initializer
    [https://www.githubstatus.com/api/v2/summary.json] (a valid absolute
    URL), no validation error names [githubStatusUrl], loading behaves as if
    the variable were set to that text, and it succeeds as soon as the three
    other settings validate. *)
Theorem missing_status_url_takes_default
    (Number : string -> Config.JsNumber) (isURL : string -> bool)
    (source : gmap string string) :
  source !! "GITHUB_STATUS_URL" = None ->
  isURL "https://www.githubstatus.com/api/v2/summary.json" = true ->
  Config.githubStatusUrl (Config.plainToInstance Number source)
  = "https://www.githubstatus.com/api/v2/summary.json"
  /\ (forall error : Config.ValidationError,
         In error (Config.validateSync isURL (Config.plainToInstance Number source)) ->
         Config.property error <> "githubStatusUrl")
  /\ Config.validateConfigSlice Number isURL source
     = Config.validateConfigSlice Number isURL
         (<["GITHUB_STATUS_URL" := "https://www.githubstatus.com/api/v2/summary.json"]> source)
  /\ (Config.check_githubStatusCacheTtlMs (Config.plainToInstance Number source) = [] ->
      Config.check_githubStatusProviderType (Config.plainToInstance Number source) = [] ->
      Config.check_githubStatusTimeoutMs (Config.plainToInstance Number source) = [] ->
      Config.validateConfigSlice Number isURL source
      = Return (Config.plainToInstance Number source)).
Proof.
  intros Habsent Hvalid.
  assert (Config.githubStatusUrl (Config.plainToInstance Number source)
          = "https://www.githubstatus.com/api/v2/summary.json") as Hurl.
  { unfold Config.plainToInstance, Config.expose; simpl. now rewrite Habsent. }
  assert (Config.check_githubStatusUrl isURL (Config.plainToInstance Number source) = [])
    as Hcheck.
  { unfold Config.check_githubStatusUrl, Config.violated.
    rewrite Hurl, Hvalid. reflexivity. }
  split; [exact Hurl |]. split; [| split].
  - intros error Hin Hproperty.
    now apply (validateSync_property isURL _ error Hin Hproperty).
  - unfold Config.validateConfigSlice.
    now rewrite (plainToInstance_default_url Number source Habsent).
  - intros Httl Hkind Htimeout. unfold Config.validateConfigSlice.
    now rewrite (validateSync_nil isURL _ Hcheck Httl Hkind Htimeout).
Qed.

Lemma missing_status_url_takes_default_witness :
  ({[ "GITHUB_STATUS_CACHE_TTL_MS" := "30000" ]} : gmap string string) !! "GITHUB_STATUS_URL"
  = None
  /\ Reference.isURL "https://www.githubstatus.com/api/v2/summary.json" = true
  /\ Config.validateConfigSlice Reference.Number Reference.isURL
       {[ "GITHUB_STATUS_CACHE_TTL_MS" := "30000" ]}
     = Return {| Config.githubStatusUrl := "https://www.githubstatus.com/api/v2/summary.json";
                 Config.githubStatusCacheTtlMs := Config.Integer 30000;
                 Config.githubStatusProviderType := "mock";
                 Config.githubStatusTimeoutMs := Config.Integer 2000 |}.
Proof.
  split; [reflexivity |]. split; [reflexivity |].
  exact (proj2 (proj2 (proj2
           (missing_status_url_takes_default Reference.Number Reference.isURL
              {[ "GITHUB_STATUS_CACHE_TTL_MS" := "30000" ]} eq_refl eq_refl)))
           eq_refl eq_refl eq_refl).
Defined.

(** C3, as stated, fails: with no variable set at all, so without
    [GITHUB_STATUS_URL], loading returns the slice of initializers instead
    of raising an error. *)
Lemma loading_without_status_url_succeeds :
  (∅ : gmap string string) !! "GITHUB_STATUS_URL" = None
  /\ Config.validateConfigSlice Reference.Number Reference.isURL ∅
     = Return {| Config.githubStatusUrl := "https://www.githubstatus.com/api/v2/summary.json";
                 Config.githubStatusCacheTtlMs := Config.Integer 60000;
                 Config.githubStatusProviderType := "mock";
                 Config.githubStatusTimeoutMs := Config.Integer 2000 |}
  /\ resolved (Config.validateConfigSlice Reference.Number Reference.isURL ∅) = true.
Proof.
  repeat split.
Qed.

(** C4, as the code has it: the accepted provider kinds are exactly
    [default] and [mock]. Kind [default] binds the status provider to the
    injected [DefaultGitHubStatusProvider] (the one that calls the upstream),
    kind [mock] to the injected mock provider; the factory succeeds on these
    two kinds only, [IsIn] passes on these two only, and a missing
    [GITHUB_STATUS_PROVIDER_TYPE] leaves the kind at [mock]. *)
Theorem provider_kinds_are_default_and_mock :
  (forall (Default Mock : Type) (appConfig : AppConfig)
          (defaultProvider : Default) (mockProvider : Mock),
      (githubStatusProviderType appConfig = "default" ->
       GitHubModule.GitHubStatusProviderFactory appConfig defaultProvider mockProvider
       = Return (inl defaultProvider))
      /\ (githubStatusProviderType appConfig = "mock" ->
          GitHubModule.GitHubStatusProviderFactory appConfig defaultProvider mockProvider
          = Return (inr mockProvider))
      /\ (resolved (GitHubModule.GitHubStatusProviderFactory
                      appConfig defaultProvider mockProvider) = true
          <-> githubStatusProviderType appConfig = "mock"
              \/ githubStatusProviderType appConfig = "default"))
  /\ (forall instance : Config.GitHubConfig,
         Config.check_githubStatusProviderType instance = []
         <-> Config.githubStatusProviderType instance = "mock"
             \/ Config.githubStatusProviderType instance = "default")
  /\ (forall (Number : string -> Config.JsNumber) (source : gmap string string),
         source !! "GITHUB_STATUS_PROVIDER_TYPE" = None ->
         Config.githubStatusProviderType (Config.plainToInstance Number source) = "mock").
Proof.
  split; [| split].
  - intros Default Mock appConfig defaultProvider mockProvider.
    unfold GitHubModule.GitHubStatusProviderFactory.
    destruct (String.eqb_spec (githubStatusProviderType appConfig) "default") as [-> | Hdefault].
    + repeat split; try discriminate; auto.
    + destruct (String.eqb_spec (githubStatusProviderType appConfig) "mock") as [-> | Hmock].
      * repeat split; try discriminate; auto.
      * repeat split; try contradiction; try discriminate.
        intros [? | ?]; contradiction.
  - apply check_githubStatusProviderType_nil.
  - intros Number source Habsent.
    unfold Config.plainToInstance, Config.expose; simpl. now rewrite Habsent.
Qed.

Lemma provider_kinds_are_default_and_mock_witness :
  GitHubModule.GitHubStatusProviderFactory (Mock := unit)
    (Examples.settings 60000 2000 "default")
    (Examples.providerWith 60000 Examples.healthy) tt
  = Return (inl (Examples.providerWith 60000 Examples.healthy))
  /\ GitHubModule.GitHubStatusProviderFactory (Mock := unit)
       (Examples.settings 60000 2000 "mock")
       (Examples.providerWith 60000 Examples.healthy) tt
     = Return (inr tt)
  /\ Config.githubStatusProviderType
       (Config.plainToInstance Reference.Number {[ "GITHUB_STATUS_URL" := "https://example.test/status.json" ]})
     = "mock".
Proof.
  split; [| split].
  - exact (proj1 (proj1 provider_kinds_are_default_and_mock _ unit
                    (Examples.settings 60000 2000 "default")
                    (Examples.providerWith 60000 Examples.healthy) tt) eq_refl).
  - exact (proj1 (proj2 (proj1 provider_kinds_are_default_and_mock _ unit
                           (Examples.settings 60000 2000 "mock")
                           (Examples.providerWith 60000 Examples.healthy) tt)) eq_refl).
  - exact (proj2 (proj2 provider_kinds_are_default_and_mock) Reference.Number
             {[ "GITHUB_STATUS_URL" := "https://example.test/status.json" ]} eq_refl).
Defined.

(** C4, as stated, fails: kind [real] is not accepted. Loading an
    environment that sets [GITHUB_STATUS_PROVIDER_TYPE=real] throws, and so
    does the factory on a configuration of kind [real]. *)
Lemma provider_kind_real_is_refused :
  Config.validateConfigSlice Reference.Number Reference.isURL
    {[ "GITHUB_STATUS_PROVIDER_TYPE" := "real" ]}
  = Throw (newError
             ("Invalid environment variables: githubStatusProviderType: "
              ++ "GITHUB_STATUS_PROVIDER_TYPE must be one of: mock, default"))
  /\ GitHubModule.GitHubStatusProviderFactory (Mock := unit)
       (Examples.settings 60000 2000 "real")
       (Examples.providerWith 60000 Examples.healthy) tt
     = Throw (newError "Unknown githubStatusProviderType: real").
Proof.
  split; reflexivity.
Qed.

(** C5: for every provider kind other than [default] and [mock], the
    factory that binds the status provider throws
    [Unknown githubStatusProviderType: <kind>]; it yields no provider, so
    nothing exists on which [getSummary] could be called. *)
Theorem unknown_provider_kind_throws
    (Default Mock : Type) (appConfig : AppConfig)
    (defaultProvider : Default) (mockProvider : Mock) :
  githubStatusProviderType appConfig <> "default" ->
  githubStatusProviderType appConfig <> "mock" ->
  GitHubModule.GitHubStatusProviderFactory appConfig defaultProvider mockProvider
  = Throw (newError ("Unknown githubStatusProviderType: " ++ githubStatusProviderType appConfig)).
Proof.
  intros Hdefault Hmock. unfold GitHubModule.GitHubStatusProviderFactory.
  destruct (String.eqb_spec (githubStatusProviderType appConfig) "default"); [contradiction |].
  destruct (String.eqb_spec (githubStatusProviderType appConfig) "mock"); [contradiction |].
  reflexivity.
Qed.

Lemma unknown_provider_kind_throws_witness :
  githubStatusProviderType (Examples.settings 60000 2000 "live") <> "default"
  /\ githubStatusProviderType (Examples.settings 60000 2000 "live") <> "mock"
  /\ GitHubModule.GitHubStatusProviderFactory (Mock := unit)
       (Examples.settings 60000 2000 "live")
       (Examples.providerWith 60000 Examples.healthy) tt
     = Throw (newError "Unknown githubStatusProviderType: live").
Proof.
  split; [discriminate |]. split; [discriminate |].
  apply (unknown_provider_kind_throws _ unit (Examples.settings 60000 2000 "live")
           (Examples.providerWith 60000 Examples.healthy) tt);
    discriminate.
Defined.

(** ** Statements about the health indicator *)

(** C8: [isHealthy(key)] never rejects. When [getSummary()] resolves it
    returns the result [{ [key]: { status: 'up' } }], with no further data.
    When [getSummary()] rejects it logs the failure and returns
    [{ [key]: { status: 'down', message, error } }], where [message] is the
    fixed text [GitHub status check failed] and [error] is the failure's
    text: the [message] of a thrown [Error], and [String(err)] of any other
    thrown value. So the result is "up" exactly when [getSummary()] resolves
    and "down", carrying the failure's text, exactly when it rejects. *)
Theorem isHealthy_reports_getSummary
    (githubStatusProvider : GitHubStatusProvider) (key : string) (w : World) :
  match getSummary githubStatusProvider w with
  | (Return _, w') =>
      Health.isHealthy githubStatusProvider key w
      = (Return {| Health.indicatorKey := key;
                   Health.indicatorStatus := Health.Up;
                   Health.indicatorData := [] |},
         w')
  | (Throw (ErrorObject name message), w') =>
      Health.isHealthy githubStatusProvider key w
      = (Return {| Health.indicatorKey := key;
                   Health.indicatorStatus := Health.Down;
                   Health.indicatorData :=
                     [("message", "GitHub status check failed"); ("error", message)] |},
         {| cache := cache w';
            now := now w';
            trace := (trace w'
                      ++ [LogError "GitHubStatusIndicator" "GitHub health check failed"
                            (StackOf (ErrorObject name message))])%list |})
  | (Throw (FetchResponse status), w') =>
      Health.isHealthy githubStatusProvider key w
      = (Return {| Health.indicatorKey := key;
                   Health.indicatorStatus := Health.Down;
                   Health.indicatorData :=
                     [("message", "GitHub status check failed");
                      ("error", "[object Response]")] |},
         {| cache := cache w';
            now := now w';
            trace := (trace w'
                      ++ [LogError "GitHubStatusIndicator" "GitHub health check failed"
                            (Text "[object Response]")])%list |})
  | (Throw (Value v), w') =>
      Health.isHealthy githubStatusProvider key w
      = (Return {| Health.indicatorKey := key;
                   Health.indicatorStatus := Health.Down;
                   Health.indicatorData :=
                     [("message", "GitHub status check failed"); ("error", toString v)] |},
         {| cache := cache w';
            now := now w';
            trace := (trace w'
                      ++ [LogError "GitHubStatusIndicator" "GitHub health check failed"
                            (Text (toString v))])%list |})
  end
  /\ (exists (result : Health.HealthIndicatorResult) (w' : World),
         Health.isHealthy githubStatusProvider key w = (Return result, w')
         /\ Health.indicatorKey result = key
         /\ (Health.indicatorStatus result = Health.Up
             <-> resolved (fst (getSummary githubStatusProvider w)) = true)
         /\ (Health.indicatorStatus result = Health.Down
             <-> resolved (fst (getSummary githubStatusProvider w)) = false)
         /\ (Health.indicatorData result = []
             <-> resolved (fst (getSummary githubStatusProvider w)) = true)).
Proof.
  unfold Health.isHealthy, tryCatch, mbind, Async_bind, mret, Async_ret, Health.logError.
  destruct (getSummary githubStatusProvider w) as [[summary | [name message | status | v]] w']
    eqn:Hcall; simpl.
  all: split; [reflexivity |].
  all: eexists _, _; split; [reflexivity |]; simpl; intuition discriminate.
Qed.

(** ** Statements about the telemetry provider *)


Section InitFromConfig.

Implicit Types (cfg : Telemetry.TelemetryConfig) (g : Telemetry.Global).

Lemma initFromConfig_reuses cfg g (sdk : Telemetry.NodeSDK) :
  Telemetry.telemetryEnabled cfg = true ->
  Telemetry.__otel_sdk g = Some sdk ->
  Telemetry.initFromConfig cfg g = (Some sdk, g).
Proof.
  intros Henabled Hstored. unfold Telemetry.initFromConfig.
  now rewrite Henabled, Hstored.
Qed.

Lemma initFromConfig_disabled cfg g :
  Telemetry.telemetryEnabled cfg = false ->
  Telemetry.initFromConfig cfg g
  = (None, Telemetry.log "Telemetry disabled by configuration; not initializing SDK" g).
Proof.
  intros Hdisabled. unfold Telemetry.initFromConfig. now rewrite Hdisabled.
Qed.

Lemma initAll_reuses (cfgs : list Telemetry.TelemetryConfig) :
  forall g (sdk : Telemetry.NodeSDK),
    Telemetry.__otel_sdk g = Some sdk ->
    Forall2 (fun cfg r => r = if Telemetry.telemetryEnabled cfg then Some sdk else None)
      cfgs (fst (Telemetry.initAll cfgs g))
    /\ Telemetry.__otel_sdk (snd (Telemetry.initAll cfgs g)) = Some sdk
    /\ Telemetry.constructed (snd (Telemetry.initAll cfgs g)) = Telemetry.constructed g.
Proof.
  induction cfgs as [| cfg rest IH]; intros g sdk Hstored; simpl.
  - repeat split; [constructor | assumption].
  - destruct (Telemetry.telemetryEnabled cfg) eqn:Henabled.
    + rewrite (initFromConfig_reuses cfg g sdk Henabled Hstored).
      specialize (IH g sdk Hstored).
      destruct (Telemetry.initAll rest g) as [rs g2]; simpl in *.
      destruct IH as (Hall & Hslot & Hcount).
      repeat split; try assumption.
      constructor; [now rewrite Henabled | assumption].
    + rewrite (initFromConfig_disabled cfg g Henabled).
      specialize (IH (Telemetry.log
                        "Telemetry disabled by configuration; not initializing SDK" g)
                    sdk Hstored).
      destruct (Telemetry.initAll rest _) as [rs g2]; simpl in *.
      destruct IH as (Hall & Hslot & Hcount).
      repeat split; try assumption.
      constructor; [now rewrite Henabled | assumption].
Qed.

End InitFromConfig.

(** C10: once [global.__otel_sdk] holds an SDK, every later call of
    [initFromConfig] with telemetry enabled returns that instance, whatever
    the rest of the configuration says, and constructs nothing; every call
    with telemetry disabled returns [undefined], constructs nothing and
    leaves the slot as it was. The first enabled call on an empty slot is
    the one that constructs an SDK and stores it. *)
Theorem initFromConfig_is_idempotent :
  (forall (g : Telemetry.Global) (sdk : Telemetry.NodeSDK)
          (cfgs : list Telemetry.TelemetryConfig),
      Telemetry.__otel_sdk g = Some sdk ->
      Forall2 (fun cfg r => r = if Telemetry.telemetryEnabled cfg then Some sdk else None)
        cfgs (fst (Telemetry.initAll cfgs g))
      /\ Telemetry.__otel_sdk (snd (Telemetry.initAll cfgs g)) = Some sdk
      /\ Telemetry.constructed (snd (Telemetry.initAll cfgs g)) = Telemetry.constructed g)
  /\ (forall (cfg : Telemetry.TelemetryConfig) (g : Telemetry.Global),
         Telemetry.telemetryEnabled cfg = false ->
         fst (Telemetry.initFromConfig cfg g) = None
         /\ Telemetry.__otel_sdk (snd (Telemetry.initFromConfig cfg g)) = Telemetry.__otel_sdk g
         /\ Telemetry.constructed (snd (Telemetry.initFromConfig cfg g))
            = Telemetry.constructed g)
  /\ (forall (cfg : Telemetry.TelemetryConfig) (g : Telemetry.Global),
         Telemetry.telemetryEnabled cfg = true ->
         Telemetry.__otel_sdk g = None ->
         exists sdk : Telemetry.NodeSDK,
           fst (Telemetry.initFromConfig cfg g) = Some sdk
           /\ Telemetry.__otel_sdk (snd (Telemetry.initFromConfig cfg g)) = Some sdk
           /\ Telemetry.constructed (snd (Telemetry.initFromConfig cfg g))
              = S (Telemetry.constructed g)).
Proof.
  split; [| split].
  - intros g sdk cfgs Hstored. now apply initAll_reuses.
  - intros cfg g Hdisabled. rewrite (initFromConfig_disabled cfg g Hdisabled).
    repeat split.
  - intros cfg g Henabled Hempty. unfold Telemetry.initFromConfig.
    rewrite Henabled, Hempty; simpl. eexists. repeat split.
Qed.

Lemma initFromConfig_is_idempotent_witness :
  (fst (Telemetry.initAll
          [Examples.telemetryOn; Examples.telemetryOff; Examples.telemetryElsewhere]
          (snd (Telemetry.initFromConfig Examples.telemetryOn Examples.pristine)))
   = [fst (Telemetry.initFromConfig Examples.telemetryOn Examples.pristine);
      None;
      fst (Telemetry.initFromConfig Examples.telemetryOn Examples.pristine)]
   /\ Telemetry.constructed
        (snd (Telemetry.initAll
                [Examples.telemetryOn; Examples.telemetryOff; Examples.telemetryElsewhere]
                (snd (Telemetry.initFromConfig Examples.telemetryOn Examples.pristine))))
      = 1%nat)
  /\ fst (Telemetry.initFromConfig Examples.telemetryOff Examples.pristine) = None
  /\ Telemetry.constructed
       (snd (Telemetry.initFromConfig Examples.telemetryOn Examples.pristine)) = 1%nat.
Proof.
  destruct initFromConfig_is_idempotent as (Hlater & Hdisabled & Hfirst).
  split; [| split].
  - destruct (Hlater (snd (Telemetry.initFromConfig Examples.telemetryOn Examples.pristine))
                {| Telemetry.instanceId := 0;
                   Telemetry.metricExporterUrl := "http://localhost:4318/v1/metrics";
                   Telemetry.exportIntervalMillis := 60000;
                   Telemetry.resourceServiceName := "nestjs-rr7";
                   Telemetry.resourceServiceVersion := "0.0.0";
                   Telemetry.traceExporterUrl := "http://localhost:4318/v1/traces" |}
                [Examples.telemetryOn; Examples.telemetryOff; Examples.telemetryElsewhere]
                eq_refl) as (_ & _ & Hcount).
    split; [reflexivity | exact Hcount].
  - exact (proj1 (Hdisabled Examples.telemetryOff Examples.pristine eq_refl)).
  - destruct (Hfirst Examples.telemetryOn Examples.pristine eq_refl eq_refl)
      as (sdk & _ & _ & Hcount).
    exact Hcount.
Defined.

(** ** Worked scenarios *)

(** An upstream answering 500 makes [getSummary] reject with axios' error. *)
Example upstream_500_rejects :
  fst (DefaultGitHubStatusProvider.getSummary
         (Examples.providerWith 60000 Examples.erroring) Examples.boot)
  = Throw (ErrorObject "AxiosError" "Request failed with status code 500").
Proof. reflexivity. Qed.

(** An upstream slower than the 2000 ms timeout makes it reject with rxjs'
    [TimeoutError], at the instant the timeout fires. *)
Example slow_upstream_times_out :
  fst (DefaultGitHubStatusProvider.getSummary
         (Examples.providerWith 60000 Examples.slow) Examples.boot)
  = Throw (ErrorObject "TimeoutError" "Timeout has occurred")
  /\ now (snd (DefaultGitHubStatusProvider.getSummary
                 (Examples.providerWith 60000 Examples.slow) Examples.boot)) = 2000.
Proof. split; reflexivity. Qed.

(** The health check then reports "down" with the failure's message. *)
Example health_is_down_on_500 :
  fst (Health.isHealthy
         (DefaultGitHubStatusProvider.provider (Examples.providerWith 60000 Examples.erroring))
         "github" Examples.boot)
  = Return {| Health.indicatorKey := "github";
              Health.indicatorStatus := Health.Down;
              Health.indicatorData :=
                [("message", "GitHub status check failed");
                 ("error", "Request failed with status code 500")] |}.
Proof. reflexivity. Qed.

Example health_is_up_on_200 :
  fst (Health.isHealthy
         (DefaultGitHubStatusProvider.provider (Examples.providerWith 60000 Examples.healthy))
         "github" Examples.boot)
  = Return {| Health.indicatorKey := "github";
              Health.indicatorStatus := Health.Up;
              Health.indicatorData := [] |}.
Proof. reflexivity. Qed.

(** With [cacheTtlMs = 1500] the number stored as the TTL is 2, which the
    cache counts in milliseconds: a call two seconds later goes upstream
    again. *)
Example entry_expires_after_rounded_ttl :
  upstreamCalls
    (snd (DefaultGitHubStatusProvider.getSummary (Examples.providerWith 1500 Examples.healthy)
            (advance 2000
               (snd (DefaultGitHubStatusProvider.getSummary
                       (Examples.providerWith 1500 Examples.healthy) Examples.boot)))))
  = 2%nat.
Proof. reflexivity. Qed.

(** The cache test is JavaScript truthiness: a body that is not an object
    and is falsy (here the empty string) is stored but never served, so the
    next call, though the entry has not expired, goes upstream again.
    Summaries, being objects, are truthy. *)
Example falsy_body_is_fetched_again :
  upstreamCalls
    (snd (DefaultGitHubStatusProvider.getSummary
            (Examples.providerWith 60000 (fun _ _ => Responds 120 200 (JString "")))
            (advance 10
               (snd (DefaultGitHubStatusProvider.getSummary
                       (Examples.providerWith 60000 (fun _ _ => Responds 120 200 (JString "")))
                       Examples.boot)))))
  = 2%nat.
Proof. reflexivity. Qed.

(** A loader that throws a [Response] for control flow: [withSpan] rethrows
    it, records nothing on the span and ends the span. *)
Example withSpan_thrown_response :
  Telemetry.withSpan (T := JsValue) (Examples.settings 60000 2000 "mock") "loader"
    (fun span => (Telemetry.Sync (Throw (FetchResponse 302)), span)) None
  = (Telemetry.Sync (Throw (FetchResponse 302)),
     {| Telemetry.tracerName := "nestjs-rr7";
        Telemetry.tracerVersion := "0.0.0";
        Telemetry.spanName := "loader";
        Telemetry.spanOptions := None;
        Telemetry.endCalls := 1;
        Telemetry.exceptions := [];
        Telemetry.spanStatus := (Telemetry.UNSET, None) |}).
Proof. reflexivity. Qed.

(** A promise rejecting with an [Error]: the rejection is passed on, the
    exception and the ERROR status are recorded, and the span is ended. *)
Example withSpan_rejected_promise :
  Telemetry.withSpan (T := JsValue) (Examples.settings 60000 2000 "mock")
    "getGitHubStatusSummary"
    (fun span => (Telemetry.Promised (Throw TimeoutError), span)) None
  = (Telemetry.Promised (Throw TimeoutError),
     {| Telemetry.tracerName := "nestjs-rr7";
        Telemetry.tracerVersion := "0.0.0";
        Telemetry.spanName := "getGitHubStatusSummary";
        Telemetry.spanOptions := None;
        Telemetry.endCalls := 1;
        Telemetry.exceptions :=
          [{| Telemetry.exceptionName := "TimeoutError";
              Telemetry.exceptionMessage := Some "Timeout has occurred";
              Telemetry.exceptionStack := StackOf TimeoutError |}];
        Telemetry.spanStatus := (Telemetry.ERROR, Some "Timeout has occurred") |}).
Proof. reflexivity. Qed.

(** [Math.ceil(cacheTtlMs / 1000)] on some settings; the last one is an
    integer double beyond 2^53, where the rounding of the division shows. *)
Example Math_ceil_div_samples :
  Math_ceil_div 0 1000 = 0
  /\ Math_ceil_div 1 1000 = 1
  /\ Math_ceil_div 1000 1000 = 1
  /\ Math_ceil_div 1500 1000 = 2
  /\ Math_ceil_div 60000 1000 = 60
  /\ Math_ceil_div 10000000000000002048 1000 = 10000000000000002.
Proof. repeat split. Qed.

(** With the default [cacheTtlMs = 60000] the entry is written with a TTL
    of 60, counted in milliseconds: a call 30 ms after the fetch resolved is
    served from the cache, a call 61 ms after it goes upstream. *)
Example default_ttl_lasts_sixty_milliseconds :
  upstreamCalls
    (snd (DefaultGitHubStatusProvider.getSummary (Examples.providerWith 60000 Examples.healthy)
            (advance 30
               (snd (DefaultGitHubStatusProvider.getSummary
                       (Examples.providerWith 60000 Examples.healthy) Examples.boot)))))
  = 1%nat
  /\ upstreamCalls
       (snd (DefaultGitHubStatusProvider.getSummary
               (Examples.providerWith 60000 Examples.healthy)
               (advance 61
                  (snd (DefaultGitHubStatusProvider.getSummary
                          (Examples.providerWith 60000 Examples.healthy) Examples.boot)))))
     = 2%nat.
Proof. split; reflexivity. Qed.

(** Two violated settings, formatted by [formatValidationErrors]. *)
Example invalid_url_and_ttl :
  Config.validateConfigSlice Reference.Number Reference.isURL
    (<["GITHUB_STATUS_CACHE_TTL_MS" := "-1"]> {[ "GITHUB_STATUS_URL" := "summary.json" ]})
  = Throw (newError
             ("Invalid environment variables: "
              ++ "githubStatusUrl: GITHUB_STATUS_URL must be a valid absolute URL; "
              ++ "githubStatusCacheTtlMs: GITHUB_STATUS_CACHE_TTL_MS must be >= 0")).
Proof. reflexivity. Qed.

(** ** Further properties of [getSummary] *)

Section GetSummaryFurther.

Variable this : DefaultGitHubStatusProvider.t.

(** The request bounded by the timeout, case by case. *)
Lemma fetchSummary_timed_out (w : World) :
  githubStatusTimeoutMs (DefaultGitHubStatusProvider.appConfig this)
  <= latencyOf (DefaultGitHubStatusProvider.http this
                  (githubStatusUrl (DefaultGitHubStatusProvider.appConfig this)) (now w)) ->
  fetchSummary this w
  = (Throw TimeoutError,
     advance (githubStatusTimeoutMs (DefaultGitHubStatusProvider.appConfig this))
       (record (HttpGet (githubStatusUrl (DefaultGitHubStatusProvider.appConfig this))) w)).
Proof.
  intros Hlate. unfold fetchSummary, firstValueFrom, timeout, httpGet.
  destruct (DefaultGitHubStatusProvider.http this _ (now w)) as [latency code body | latency message];
    simpl in *; [destruct (validateStatus code) |]; simpl;
    now rewrite (proj2 (Z.leb_le _ _) Hlate).
Qed.

Lemma fetchSummary_elapsed (w : World) :
  now (snd (fetchSummary this w))
  <= now w + githubStatusTimeoutMs (DefaultGitHubStatusProvider.appConfig this).
Proof.
  unfold fetchSummary, firstValueFrom, timeout, httpGet.
  destruct (DefaultGitHubStatusProvider.http this _ (now w)) as [latency code body | latency message];
    simpl; [destruct (validateStatus code) |]; simpl;
    destruct (_ <=? latency) eqn:Hlate; simpl;
    try apply Z.leb_gt in Hlate; lia.
Qed.

(** An entry that is absent, expired or falsy stays unusable as time
    passes, as long as nobody writes to the cache. *)
Lemma peek_falsy_later (key : string) (w w' : World) :
  truthy (CacheManager.peek key w) = false ->
  cache w' = cache w ->
  now w <= now w' ->
  truthy (CacheManager.peek key w') = false.
Proof.
  unfold CacheManager.peek, CacheManager.live. intros Hfalsy -> Hlater.
  destruct (cache w !! key) as [entry |]; [| reflexivity].
  destruct (expiresAt entry) as [expiry |]; [| exact Hfalsy].
  destruct (now w' <=? expiry) eqn:Hfresh; [| reflexivity].
  apply Z.leb_le in Hfresh.
  now rewrite (proj2 (Z.leb_le (now w) expiry)) in Hfalsy by lia.
Qed.

End GetSummaryFurther.

(** X1: [getSummary] reads and writes the shared cache under its own key
    only: every other key holds after the call what it held before. *)
Theorem getSummary_touches_only_its_key
    (this : DefaultGitHubStatusProvider.t) (w : World) (key : string) :
  key <> DefaultGitHubStatusProvider.summaryKey ->
  cache (snd (DefaultGitHubStatusProvider.getSummary this w)) !! key = cache w !! key.
Proof.
  intros Hother.
  destruct (getSummary_served this w); simpl; try reflexivity.
  apply lookup_insert_ne. congruence.
Qed.

Lemma getSummary_touches_only_its_key_witness :
  "session:42" <> DefaultGitHubStatusProvider.summaryKey
  /\ cache (snd (DefaultGitHubStatusProvider.getSummary
                   (Examples.providerWith 60000 Examples.healthy)
                   {| cache := {[ "session:42" :=
                                    {| entryValue := JString "alice"; expiresAt := Some 500 |} ]};
                      now := 0;
                      trace := [] |}))
     !! "session:42"
     = Some {| entryValue := JString "alice"; expiresAt := Some 500 |}.
Proof.
  split; [discriminate |].
  exact (getSummary_touches_only_its_key
           (Examples.providerWith 60000 Examples.healthy)
           {| cache := {[ "session:42" :=
                            {| entryValue := JString "alice"; expiresAt := Some 500 |} ]};
              now := 0;
              trace := [] |}
           "session:42" ltac:(discriminate)).
Defined.

(** X2: one call of [getSummary] reads the cache once and then does one of
    three things: nothing more (it returns the cached value); one upstream
    request and no write (it rejects); one upstream request followed by one
    write of the body it returns. It never retries and never writes before
    the request has succeeded. *)
Theorem getSummary_trace (this : DefaultGitHubStatusProvider.t) (w : World) :
  (fst (DefaultGitHubStatusProvider.getSummary this w)
   = Return (CacheManager.peek DefaultGitHubStatusProvider.summaryKey w)
   /\ trace (snd (DefaultGitHubStatusProvider.getSummary this w))
      = (trace w ++ [CacheGet DefaultGitHubStatusProvider.summaryKey])%list)
  \/ (resolved (fst (DefaultGitHubStatusProvider.getSummary this w)) = false
      /\ trace (snd (DefaultGitHubStatusProvider.getSummary this w))
         = (trace w ++ [CacheGet DefaultGitHubStatusProvider.summaryKey;
                        HttpGet (githubStatusUrl (DefaultGitHubStatusProvider.appConfig this))])%list)
  \/ (exists body : JsValue,
         fst (DefaultGitHubStatusProvider.getSummary this w) = Return body
         /\ trace (snd (DefaultGitHubStatusProvider.getSummary this w))
            = (trace w ++ [CacheGet DefaultGitHubStatusProvider.summaryKey;
                          HttpGet (githubStatusUrl (DefaultGitHubStatusProvider.appConfig this));
                          CacheSet DefaultGitHubStatusProvider.summaryKey body
                            (cacheTtlSeconds this)])%list).
Proof.
  destruct (getSummary_served this w) as [_ | latency code body _ _ _ _ | e waited _ _ _ _];
    simpl.
  - left. split; reflexivity.
  - right. right. exists body. split; [reflexivity |].
    now rewrite <- !app_assoc.
  - right. left. split; [reflexivity |].
    now rewrite <- !app_assoc.
Qed.

(** X3: the number stored as the TTL, [Math.ceil(cacheTtlMs / 1000)], is
    counted by the cache in milliseconds. Unless it is zero, the next call
    goes upstream again as soon as more milliseconds than that have passed
    since the fetch resolved. *)
Theorem getSummary_refetches_after_expiry
    (this : DefaultGitHubStatusProvider.t) (w0 w1 : World) (summary : JsValue) (dt : Z) :
  DefaultGitHubStatusProvider.getSummary this w0 = (Return summary, w1) ->
  upstreamCalls w1 = S (upstreamCalls w0) ->
  cacheTtlSeconds this <> 0 ->
  cacheTtlSeconds this < dt ->
  upstreamCalls (snd (DefaultGitHubStatusProvider.getSummary this (advance dt w1)))
  = S (upstreamCalls w1).
Proof.
  intros Hfirst Hfetch Hnonzero Hexpired.
  now apply (getSummary_expired this w0 w1 summary dt).
Qed.

Lemma getSummary_refetches_after_expiry_witness :
  cacheTtlSeconds (Examples.providerWith 1500 Examples.healthy) <> 0
  /\ cacheTtlSeconds (Examples.providerWith 1500 Examples.healthy) < 3
  /\ upstreamCalls
       (snd (DefaultGitHubStatusProvider.getSummary
               (Examples.providerWith 1500 Examples.healthy)
               (advance 3
                  (snd (DefaultGitHubStatusProvider.getSummary
                          (Examples.providerWith 1500 Examples.healthy) Examples.boot)))))
     = 2%nat.
Proof.
  split; [vm_compute; discriminate |]. split; [reflexivity |].
  exact (getSummary_refetches_after_expiry
           (Examples.providerWith 1500 Examples.healthy)
           Examples.boot
           (snd (DefaultGitHubStatusProvider.getSummary
                   (Examples.providerWith 1500 Examples.healthy) Examples.boot))
           Examples.operational 3 eq_refl eq_refl
           ltac:(vm_compute; discriminate) eq_refl).
Defined.

(** X4: a failure is not remembered. After a call that rejected, any later
    call goes upstream again. *)
Theorem getSummary_failure_is_retried
    (this : DefaultGitHubStatusProvider.t) (w w1 : World) (e : Thrown) (dt : Z) :
  DefaultGitHubStatusProvider.getSummary this w = (Throw e, w1) ->
  now w <= now w1 + dt ->
  upstreamCalls (snd (DefaultGitHubStatusProvider.getSummary this (advance dt w1)))
  = S (upstreamCalls w1).
Proof.
  intros Hcall Hlater.
  pose proof (getSummary_served this w) as Hpath. rewrite Hcall in Hpath.
  inversion Hpath as [| | e' waited Hmiss _ _ _ [He Hw]]; subst.
  assert (truthy (CacheManager.peek DefaultGitHubStatusProvider.summaryKey
                    (advance dt (advance waited (requested this w)))) = false) as Hstill.
  { apply (peek_falsy_later _ w); [assumption | reflexivity | exact Hlater]. }
  destruct (getSummary_upstreamCalls this (advance dt (advance waited (requested this w))))
    as [[Hhit _] | [_ Hmore]].
  - rewrite Hstill in Hhit. discriminate.
  - now rewrite Hmore, upstreamCalls_advance.
Qed.

Lemma getSummary_failure_is_retried_witness :
  now Examples.boot
  <= now (snd (DefaultGitHubStatusProvider.getSummary
                 (Examples.providerWith 60000 Examples.erroring) Examples.boot)) + 5
  /\ upstreamCalls
       (snd (DefaultGitHubStatusProvider.getSummary
               (Examples.providerWith 60000 Examples.erroring)
               (advance 5
                  (snd (DefaultGitHubStatusProvider.getSummary
                          (Examples.providerWith 60000 Examples.erroring) Examples.boot)))))
     = 2%nat.
Proof.
  split; [vm_compute; discriminate |].
  exact (getSummary_failure_is_retried
           (Examples.providerWith 60000 Examples.erroring)
           Examples.boot
           (snd (DefaultGitHubStatusProvider.getSummary
                   (Examples.providerWith 60000 Examples.erroring) Examples.boot))
           (ErrorObject "AxiosError" "Request failed with status code 500")
           5 eq_refl ltac:(vm_compute; discriminate)).
Defined.

(** X5: when the cache cannot serve and the upstream has not answered by
    the time the timeout expires, [getSummary] rejects with rxjs'
    [TimeoutError] exactly [githubStatusTimeoutMs] after the call, whatever
    the upstream would have answered. With a timeout of zero, which the
    configuration accepts, this is every upstream attempt. *)
Theorem getSummary_times_out
    (this : DefaultGitHubStatusProvider.t) (w : World) :
  truthy (CacheManager.peek DefaultGitHubStatusProvider.summaryKey w) = false ->
  githubStatusTimeoutMs (DefaultGitHubStatusProvider.appConfig this)
  <= latencyOf (upstreamAt this w) ->
  DefaultGitHubStatusProvider.getSummary this w
  = (Throw TimeoutError,
     advance (githubStatusTimeoutMs (DefaultGitHubStatusProvider.appConfig this))
       (requested this w)).
Proof.
  intros Hmiss Hlate.
  pose proof (fetchSummary_timed_out this
                (record (CacheGet DefaultGitHubStatusProvider.summaryKey) w) Hlate) as Hfetch.
  destruct (getSummary_served this w)
    as [Hhit | latency code body _ Hup Hlat _ | e waited _ _ Hfailed _].
  - rewrite Hmiss in Hhit. discriminate.
  - unfold upstreamAt in Hlate. rewrite Hup in Hlate. simpl in Hlate. lia.
  - rewrite Hfetch in Hfailed.
    assert (e = TimeoutError
            /\ waited = githubStatusTimeoutMs (DefaultGitHubStatusProvider.appConfig this))
      as [-> ->]; [| reflexivity].
    injection Hfailed as He Hnow. split; [congruence | lia].
Qed.

Lemma getSummary_times_out_witness :
  truthy (CacheManager.peek DefaultGitHubStatusProvider.summaryKey Examples.boot) = false
  /\ 0 <= latencyOf
            (upstreamAt
               {| DefaultGitHubStatusProvider.appConfig := Examples.settings 60000 0 "default";
                  DefaultGitHubStatusProvider.http := Examples.healthy |}
               Examples.boot)
  /\ fst (DefaultGitHubStatusProvider.getSummary
            {| DefaultGitHubStatusProvider.appConfig := Examples.settings 60000 0 "default";
               DefaultGitHubStatusProvider.http := Examples.healthy |}
            Examples.boot)
     = Throw (ErrorObject "TimeoutError" "Timeout has occurred").
Proof.
  split; [reflexivity |]. split; [vm_compute; discriminate |].
  exact (f_equal fst
           (getSummary_times_out
              {| DefaultGitHubStatusProvider.appConfig := Examples.settings 60000 0 "default";
                 DefaultGitHubStatusProvider.http := Examples.healthy |}
              Examples.boot eq_refl ltac:(vm_compute; discriminate))).
Defined.

(** X6: with a non-negative timeout (what validation guarantees),
    [getSummary] settles no later than [githubStatusTimeoutMs] after the
    call: at once on a cache hit, and otherwise when the upstream answers or
    the timeout fires, whichever comes first. *)
Theorem getSummary_settles_within_timeout
    (this : DefaultGitHubStatusProvider.t) (w : World) :
  0 <= githubStatusTimeoutMs (DefaultGitHubStatusProvider.appConfig this) ->
  now (snd (DefaultGitHubStatusProvider.getSummary this w))
  <= now w + githubStatusTimeoutMs (DefaultGitHubStatusProvider.appConfig this).
Proof.
  intros Hnonneg.
  pose proof (fetchSummary_elapsed this
                (record (CacheGet DefaultGitHubStatusProvider.summaryKey) w)) as Hbound.
  destruct (getSummary_served this w)
    as [_ | latency code body _ _ Hlat _ | e waited _ _ Hfailed _]; simpl in *.
  - lia.
  - lia.
  - rewrite Hfailed in Hbound. simpl in Hbound. lia.
Qed.

Lemma getSummary_settles_within_timeout_witness :
  0 <= githubStatusTimeoutMs
         (DefaultGitHubStatusProvider.appConfig (Examples.providerWith 60000 Examples.slow))
  /\ now (snd (DefaultGitHubStatusProvider.getSummary
                 (Examples.providerWith 60000 Examples.slow) Examples.boot))
     <= now Examples.boot + 2000.
Proof.
  split; [vm_compute; discriminate |].
  exact (getSummary_settles_within_timeout
           (Examples.providerWith 60000 Examples.slow) Examples.boot
           ltac:(vm_compute; discriminate)).
Defined.

(** X8: a call that went upstream and resolved leaves under its key exactly
    the body it returned. The entry's expiry is the instant the call
    resolved plus the number [Math.ceil(cacheTtlMs / 1000)], counted in
    milliseconds; when that number is zero the entry has no expiry. *)
Theorem getSummary_stores_what_it_returns
    (this : DefaultGitHubStatusProvider.t) (w0 w1 : World) (summary : JsValue) :
  DefaultGitHubStatusProvider.getSummary this w0 = (Return summary, w1) ->
  upstreamCalls w1 = S (upstreamCalls w0) ->
  cache w1 !! DefaultGitHubStatusProvider.summaryKey
  = Some {| entryValue := summary;
            expiresAt := if cacheTtlSeconds this =? 0
                         then None
                         else Some (now w1 + cacheTtlSeconds this) |}.
Proof.
  intros Hcall Hfetch.
  pose proof (getSummary_served this w0) as Hpath. rewrite Hcall in Hpath.
  inversion Hpath as [Hhit Hr | latency code body Hmiss Hup Hlat Hcode Hr | ]; subst.
  - rewrite upstreamCalls_record in Hfetch; simpl in Hfetch. lia.
  - simpl. apply lookup_insert_eq.
Qed.

Lemma getSummary_stores_what_it_returns_witness :
  cache (snd (DefaultGitHubStatusProvider.getSummary
                (Examples.providerWith 60000 Examples.healthy) Examples.boot))
  !! DefaultGitHubStatusProvider.summaryKey
  = Some {| entryValue := Examples.operational; expiresAt := Some (120 + 60) |}.
Proof.
  exact (getSummary_stores_what_it_returns
           (Examples.providerWith 60000 Examples.healthy)
           Examples.boot
           (snd (DefaultGitHubStatusProvider.getSummary
                   (Examples.providerWith 60000 Examples.healthy) Examples.boot))
           Examples.operational eq_refl eq_refl).
Defined.

(** X23: when the cache holds, under the fixed key, a summary (an object)
    that is still served, [getSummary] returns it after the cache read
    alone: it sends no upstream request and writes nothing. *)
Theorem getSummary_cache_hit
    (this : DefaultGitHubStatusProvider.t) (w : World) (entry : CacheEntry) :
  cache w !! DefaultGitHubStatusProvider.summaryKey = Some entry ->
  CacheManager.live (now w) entry = true ->
  isRecord (entryValue entry) = true ->
  DefaultGitHubStatusProvider.getSummary this w
  = (Return (entryValue entry), record (CacheGet DefaultGitHubStatusProvider.summaryKey) w)
  /\ upstreamCalls (snd (DefaultGitHubStatusProvider.getSummary this w)) = upstreamCalls w
  /\ cache (snd (DefaultGitHubStatusProvider.getSummary this w)) = cache w.
Proof.
  intros Hentry Hlive Hobject.
  assert (CacheManager.peek DefaultGitHubStatusProvider.summaryKey w = entryValue entry)
    as Hpeek by (unfold CacheManager.peek; now rewrite Hentry, Hlive).
  assert (truthy (CacheManager.peek DefaultGitHubStatusProvider.summaryKey w) = true)
    as Hhit by (rewrite Hpeek; now apply summary_is_truthy).
  rewrite (getSummary_hit this w Hhit), Hpeek.
  repeat split. simpl. rewrite upstreamCalls_record; simpl. lia.
Qed.

Lemma getSummary_cache_hit_witness :
  DefaultGitHubStatusProvider.getSummary (Examples.providerWith 60000 Examples.offline)
    {| cache := {[ "github-status:summary" :=
                     {| entryValue := Examples.operational; expiresAt := Some 180 |} ]};
       now := 150;
       trace := [] |}
  = (Return Examples.operational,
     {| cache := {[ "github-status:summary" :=
                      {| entryValue := Examples.operational; expiresAt := Some 180 |} ]};
        now := 150;
        trace := [CacheGet "github-status:summary"] |}).
Proof.
  exact (proj1 (getSummary_cache_hit
                  (Examples.providerWith 60000 Examples.offline)
                  {| cache := {[ "github-status:summary" :=
                                   {| entryValue := Examples.operational;
                                      expiresAt := Some 180 |} ]};
                     now := 150;
                     trace := [] |}
                  {| entryValue := Examples.operational; expiresAt := Some 180 |}
                  eq_refl eq_refl eq_refl)).
Defined.

(** ** The health indicator over the default provider *)

(** X9: while the cache holds a summary that is still served, a health
    check over the default provider reports "up" from the cache alone: no
    upstream request is sent and nothing is logged. *)
Theorem isHealthy_served_from_cache
    (this : DefaultGitHubStatusProvider.t) (key : string) (w : World) (entry : CacheEntry) :
  cache w !! DefaultGitHubStatusProvider.summaryKey = Some entry ->
  CacheManager.live (now w) entry = true ->
  isRecord (entryValue entry) = true ->
  Health.isHealthy (DefaultGitHubStatusProvider.provider this) key w
  = (Return {| Health.indicatorKey := key;
               Health.indicatorStatus := Health.Up;
               Health.indicatorData := [] |},
     record (CacheGet DefaultGitHubStatusProvider.summaryKey) w).
Proof.
  intros Hentry Hlive Hobject.
  assert (CacheManager.peek DefaultGitHubStatusProvider.summaryKey w = entryValue entry)
    as Hpeek by (unfold CacheManager.peek; now rewrite Hentry, Hlive).
  assert (truthy (entryValue entry) = true) as Htruthy by now apply summary_is_truthy.
  unfold Health.isHealthy, tryCatch, mbind, Async_bind, mret, Async_ret; simpl.
  destruct (getSummary_served this w) as [_ | ? ? ? Hmiss | ? ? Hmiss];
    try (rewrite Hpeek, Htruthy in Hmiss; discriminate).
  reflexivity.
Qed.

Lemma isHealthy_served_from_cache_witness :
  Health.isHealthy
    (DefaultGitHubStatusProvider.provider (Examples.providerWith 60000 Examples.offline))
    "github"
    {| cache := {[ "github-status:summary" :=
                     {| entryValue := Examples.operational; expiresAt := Some 180 |} ]};
       now := 150;
       trace := [] |}
  = (Return {| Health.indicatorKey := "github";
               Health.indicatorStatus := Health.Up;
               Health.indicatorData := [] |},
     {| cache := {[ "github-status:summary" :=
                      {| entryValue := Examples.operational; expiresAt := Some 180 |} ]};
        now := 150;
        trace := [CacheGet "github-status:summary"] |}).
Proof.
  exact (isHealthy_served_from_cache
           (Examples.providerWith 60000 Examples.offline) "github"
           {| cache := {[ "github-status:summary" :=
                            {| entryValue := Examples.operational; expiresAt := Some 180 |} ]};
              now := 150;
              trace := [] |}
           {| entryValue := Examples.operational; expiresAt := Some 180 |}
           eq_refl eq_refl eq_refl).
Defined.

(** X10: when the cache cannot serve and the upstream call fails, a health
    check over the default provider returns the "down" result for its key
    whose data are the fixed [message] and, under [error], the message of
    the HTTP pipeline's error; it logs the failure once with that error's
    stack, sends one request and leaves the cache entries as they were. *)
Theorem isHealthy_down_on_upstream_failure
    (this : DefaultGitHubStatusProvider.t) (key : string) (w : World) :
  truthy (CacheManager.peek DefaultGitHubStatusProvider.summaryKey w) = false ->
  upstreamFails this w = true ->
  exists (name message : string) (waited : Z),
    fetchSummary this (record (CacheGet DefaultGitHubStatusProvider.summaryKey) w)
    = (Throw (ErrorObject name message), advance waited (requested this w))
    /\ FetchFailed (githubStatusTimeoutMs (DefaultGitHubStatusProvider.appConfig this))
         (upstreamAt this w) (ErrorObject name message)
    /\ Health.isHealthy (DefaultGitHubStatusProvider.provider this) key w
       = (Return {| Health.indicatorKey := key;
                    Health.indicatorStatus := Health.Down;
                    Health.indicatorData :=
                      [("message", "GitHub status check failed"); ("error", message)] |},
          {| cache := cache w;
             now := now w + waited;
             trace := (trace w
                       ++ [CacheGet DefaultGitHubStatusProvider.summaryKey;
                           HttpGet (githubStatusUrl (DefaultGitHubStatusProvider.appConfig this));
                           LogError "GitHubStatusIndicator" "GitHub health check failed"
                             (StackOf (ErrorObject name message))])%list |}).
Proof.
  intros Hmiss Hfails.
  unfold Health.isHealthy, tryCatch, mbind, Async_bind, mret, Async_ret, Health.logError;
    simpl.
  destruct (getSummary_served this w)
    as [Hhit | latency code body _ Hup Hlat Hcode | e waited _ _ Hfetch He].
  - rewrite Hmiss in Hhit. discriminate.
  - unfold upstreamFails in Hfails. rewrite Hup, Hcode in Hfails.
    apply orb_true_iff in Hfails as [Hlate | Hbad]; [| discriminate].
    apply Z.leb_le in Hlate. lia.
  - assert (exists name message, e = ErrorObject name message) as (name & message & ->)
        by (destruct He; eauto).
    exists name, message, waited. repeat split; try assumption.
    unfold Health.down, record, advance, requested; simpl.
    now rewrite <- !app_assoc.
Qed.

Lemma isHealthy_down_on_upstream_failure_witness :
  truthy (CacheManager.peek DefaultGitHubStatusProvider.summaryKey Examples.boot) = false
  /\ upstreamFails (Examples.providerWith 60000 Examples.offline) Examples.boot = true
  /\ exists (name message : string) (waited : Z),
       fetchSummary (Examples.providerWith 60000 Examples.offline)
         (record (CacheGet DefaultGitHubStatusProvider.summaryKey) Examples.boot)
       = (Throw (ErrorObject name message),
          advance waited (requested (Examples.providerWith 60000 Examples.offline)
                            Examples.boot))
       /\ FetchFailed 2000 (Breaks 15 "Error" "getaddrinfo ENOTFOUND www.githubstatus.com")
            (ErrorObject name message)
       /\ Health.isHealthy
            (DefaultGitHubStatusProvider.provider (Examples.providerWith 60000 Examples.offline))
            "github" Examples.boot
          = (Return {| Health.indicatorKey := "github";
                       Health.indicatorStatus := Health.Down;
                       Health.indicatorData :=
                         [("message", "GitHub status check failed"); ("error", message)] |},
             {| cache := ∅;
                now := 0 + waited;
                trace := [CacheGet "github-status:summary";
                          HttpGet "https://www.githubstatus.com/api/v2/summary.json";
                          LogError "GitHubStatusIndicator" "GitHub health check failed"
                            (StackOf (ErrorObject name message))] |}).
Proof.
  split; [reflexivity |]. split; [reflexivity |].
  exact (isHealthy_down_on_upstream_failure
           (Examples.providerWith 60000 Examples.offline) "github" Examples.boot
           eq_refl eq_refl).
Defined.

(** ** Further properties of the configuration loading *)

Section ConfigFurther.

Variable Number : string -> Config.JsNumber.
Variable isURL : string -> bool.

Implicit Types (source : gmap string string) (instance : Config.GitHubConfig).

Lemma numeric_checks_nil (value : Config.JsNumber) (minMessage intMessage : string) :
  Config.violated [(Config.minZero value, ("min", minMessage));
                   (Config.isInt value, ("isInt", intMessage))] = []
  <-> exists z : Z, value = Config.Integer z /\ 0 <= z.
Proof.
  unfold Config.violated. destruct value as [z | nonNegative]; simpl.
  - destruct (0 <=? z) eqn:Hz; simpl.
    + apply Z.leb_le in Hz. split; [eauto | reflexivity].
    + apply Z.leb_gt in Hz. split; [discriminate |].
      intros (z' & Hz' & Hle). injection Hz' as ->. lia.
  - destruct nonNegative; simpl; (split; [discriminate | intros (z & Hz & _); discriminate]).
Qed.

Lemma check_githubStatusUrl_nil instance :
  Config.check_githubStatusUrl isURL instance = []
  <-> isURL (Config.githubStatusUrl instance) = true.
Proof.
  unfold Config.check_githubStatusUrl, Config.violated; simpl.
  destruct (isURL (Config.githubStatusUrl instance)); simpl;
    split; (reflexivity || discriminate).
Qed.

Lemma validateSync_nil_iff instance :
  Config.validateSync isURL instance = [] <-> acceptable isURL instance.
Proof.
  unfold acceptable.
  rewrite <- check_githubStatusUrl_nil, <- (check_githubStatusProviderType_nil instance).
  rewrite <- (numeric_checks_nil (Config.githubStatusCacheTtlMs instance)
                "GITHUB_STATUS_CACHE_TTL_MS must be >= 0"
                "GITHUB_STATUS_CACHE_TTL_MS must be an integer").
  rewrite <- (numeric_checks_nil (Config.githubStatusTimeoutMs instance)
                "GITHUB_STATUS_TIMEOUT_MS must be >= 0"
                "GITHUB_STATUS_TIMEOUT_MS must be an integer").
  fold (Config.check_githubStatusCacheTtlMs instance).
  fold (Config.check_githubStatusTimeoutMs instance).
  split.
  - unfold Config.validateSync.
    destruct (Config.check_githubStatusUrl isURL instance),
      (Config.check_githubStatusCacheTtlMs instance),
      (Config.check_githubStatusProviderType instance),
      (Config.check_githubStatusTimeoutMs instance); simpl;
      intros Hnone; try discriminate; repeat split.
  - intros (Hurl & Httl & Hkind & Htimeout).
    now apply validateSync_nil.
Qed.

Lemma plainToInstance_other_variable source (name value : string) :
  name ∉ exposedNames ->
  Config.plainToInstance Number (<[name := value]> source)
  = Config.plainToInstance Number source
  /\ Config.plainToInstance Number (delete name source)
     = Config.plainToInstance Number source.
Proof.
  intros Hother. unfold exposedNames in Hother.
  repeat (apply not_elem_of_cons in Hother as [? Hother]).
  unfold Config.plainToInstance, Config.expose.
  split.
  - now rewrite !lookup_insert_ne by congruence.
  - now rewrite !lookup_delete_ne by congruence.
Qed.

End ConfigFurther.

(** X11: loading the GitHub slice succeeds exactly when the instance built
    from the environment has a valid URL, an integer TTL of at least zero, a
    kind among [mock] and [default] and an integer timeout of at least zero;
    it then returns that instance unchanged, and otherwise throws an error
    whose message starts with [Invalid environment variables: ]. *)
Theorem validateConfigSlice_accepts_iff
    (Number : string -> Config.JsNumber) (isURL : string -> bool)
    (source : gmap string string) :
  (acceptable isURL (Config.plainToInstance Number source)
   /\ Config.validateConfigSlice Number isURL source
      = Return (Config.plainToInstance Number source))
  \/ (~ acceptable isURL (Config.plainToInstance Number source)
      /\ Config.validateSync isURL (Config.plainToInstance Number source) <> []
      /\ Config.validateConfigSlice Number isURL source
         = Throw (newError
                    ("Invalid environment variables: "
                     ++ Config.formatValidationErrors
                          (Config.validateSync isURL (Config.plainToInstance Number source))))).
Proof.
  unfold Config.validateConfigSlice.
  pose proof (validateSync_nil_iff isURL (Config.plainToInstance Number source)) as Hiff.
  destruct (Config.validateSync isURL (Config.plainToInstance Number source))
    as [| error errors]; simpl.
  - left. split; [now apply Hiff | reflexivity].
  - right. split; [| split; [discriminate | reflexivity]].
    intros Hok. apply Hiff in Hok. discriminate.
Qed.

(** X12: variables other than the four the class exposes play no part:
    setting or unsetting any of them leaves the result of the loading as it
    is. *)
Theorem validateConfigSlice_ignores_other_variables
    (Number : string -> Config.JsNumber) (isURL : string -> bool)
    (source : gmap string string) (name value : string) :
  name ∉ exposedNames ->
  Config.validateConfigSlice Number isURL (<[name := value]> source)
  = Config.validateConfigSlice Number isURL source
  /\ Config.validateConfigSlice Number isURL (delete name source)
     = Config.validateConfigSlice Number isURL source.
Proof.
  intros Hother.
  destruct (plainToInstance_other_variable Number source name value Hother) as [Hset Hunset].
  unfold Config.validateConfigSlice. now rewrite Hset, Hunset.
Qed.

Lemma validateConfigSlice_ignores_other_variables_witness :
  ("NODE_ENV" ∉ exposedNames)
  /\ Config.validateConfigSlice Reference.Number Reference.isURL
       (<["NODE_ENV" := "production"]> {[ "GITHUB_STATUS_TIMEOUT_MS" := "500" ]})
     = Config.validateConfigSlice Reference.Number Reference.isURL
         {[ "GITHUB_STATUS_TIMEOUT_MS" := "500" ]}.
Proof.
  assert ("NODE_ENV" ∉ exposedNames) as Hother.
  { unfold exposedNames. intros Hin.
    repeat (apply elem_of_cons in Hin as [Hin | Hin]; [discriminate |]).
    inversion Hin. }
  split; [exact Hother |].
  exact (proj1 (validateConfigSlice_ignores_other_variables
                  Reference.Number Reference.isURL
                  {[ "GITHUB_STATUS_TIMEOUT_MS" := "500" ]} "NODE_ENV" "production" Hother)).
Defined.

(** X13: validation is not fail-fast: it reports every property that
    violates a constraint, once each, in the order of declaration. *)
Theorem validateSync_reports_every_violation
    (isURL : string -> bool) (instance : Config.GitHubConfig) :
  List.map Config.property (Config.validateSync isURL instance)
  = ((if isURL (Config.githubStatusUrl instance) then [] else ["githubStatusUrl"])
     ++ (if Config.minZero (Config.githubStatusCacheTtlMs instance)
            && Config.isInt (Config.githubStatusCacheTtlMs instance)
         then [] else ["githubStatusCacheTtlMs"])
     ++ (if Config.isIn (Config.githubStatusProviderType instance) ["mock"; "default"]
         then [] else ["githubStatusProviderType"])
     ++ (if Config.minZero (Config.githubStatusTimeoutMs instance)
            && Config.isInt (Config.githubStatusTimeoutMs instance)
         then [] else ["githubStatusTimeoutMs"]))%list.
Proof.
  unfold Config.validateSync, Config.check_githubStatusUrl, Config.check_githubStatusCacheTtlMs,
    Config.check_githubStatusProviderType, Config.check_githubStatusTimeoutMs, Config.violated.
  destruct (isURL (Config.githubStatusUrl instance)),
    (Config.minZero (Config.githubStatusCacheTtlMs instance)),
    (Config.isInt (Config.githubStatusCacheTtlMs instance)),
    (Config.isIn (Config.githubStatusProviderType instance) ["mock"; "default"]),
    (Config.minZero (Config.githubStatusTimeoutMs instance)),
    (Config.isInt (Config.githubStatusTimeoutMs instance)); reflexivity.
Qed.

(** X14: from the environment to the bound provider. When the GitHub slice
    loads, the factory over a configuration carrying it does not throw: it
    binds the default provider if [GITHUB_STATUS_PROVIDER_TYPE] is set to
    [default], and the mock provider otherwise, that is, when the variable
    is [mock] or not set. *)
Theorem loaded_environment_selects_provider
    (Number : string -> Config.JsNumber) (isURL : string -> bool)
    (source : gmap string string) (instance : Config.GitHubConfig) (appConfig : AppConfig)
    (Default Mock : Type) (defaultProvider : Default) (mockProvider : Mock) :
  Config.validateConfigSlice Number isURL source = Return instance ->
  carries appConfig instance ->
  GitHubModule.GitHubStatusProviderFactory appConfig defaultProvider mockProvider
  = if decide (source !! "GITHUB_STATUS_PROVIDER_TYPE" = Some "default")
    then Return (inl defaultProvider)
    else Return (inr mockProvider).
Proof.
  intros Hloaded (_ & _ & Hkind & _).
  pose proof (validateConfigSlice_kind Number isURL source instance Hloaded) as Hknown.
  assert (instance = Config.plainToInstance Number source) as Hinstance.
  { unfold Config.validateConfigSlice in Hloaded.
    match type of Hloaded with
    | context [if ?errors then _ else _] => destruct errors
    end; [discriminate | congruence]. }
  assert (Config.githubStatusProviderType instance
          = match source !! "GITHUB_STATUS_PROVIDER_TYPE" with
            | Some kind => kind
            | None => "mock"
            end) as Hread by (subst instance; reflexivity).
  unfold GitHubModule.GitHubStatusProviderFactory. rewrite Hkind.
  destruct (source !! "GITHUB_STATUS_PROVIDER_TYPE") as [kind |]; rewrite Hread in *.
  - destruct Hknown as [-> | ->]; simpl; try case_decide; try reflexivity; congruence.
  - simpl. try case_decide; try reflexivity; discriminate.
Qed.

Lemma loaded_environment_selects_provider_witness :
  Config.validateConfigSlice Reference.Number Reference.isURL
    {[ "GITHUB_STATUS_PROVIDER_TYPE" := "default" ]}
  = Return {| Config.githubStatusUrl := "https://www.githubstatus.com/api/v2/summary.json";
              Config.githubStatusCacheTtlMs := Config.Integer 60000;
              Config.githubStatusProviderType := "default";
              Config.githubStatusTimeoutMs := Config.Integer 2000 |}
  /\ GitHubModule.GitHubStatusProviderFactory (Mock := unit)
       (Examples.settings 60000 2000 "default")
       (Examples.providerWith 60000 Examples.healthy) tt
     = Return (inl (Examples.providerWith 60000 Examples.healthy)).
Proof.
  split; [reflexivity |].
  exact (loaded_environment_selects_provider Reference.Number Reference.isURL
           {[ "GITHUB_STATUS_PROVIDER_TYPE" := "default" ]}
           {| Config.githubStatusUrl := "https://www.githubstatus.com/api/v2/summary.json";
              Config.githubStatusCacheTtlMs := Config.Integer 60000;
              Config.githubStatusProviderType := "default";
              Config.githubStatusTimeoutMs := Config.Integer 2000 |}
           (Examples.settings 60000 2000 "default")
           _ unit (Examples.providerWith 60000 Examples.healthy) tt
           eq_refl (conj eq_refl (conj eq_refl (conj eq_refl eq_refl)))).
Defined.

(** ** [toBoolean] *)

Section LowerCase.

Local Ltac decide_letter :=
  let c := fresh "c" in
  intros c;
  destruct c as [[] [] [] [] [] [] [] []]; vm_compute;
  (split;
   [ intros H; first [discriminate H | left; reflexivity | right; reflexivity]
   | intros [H | H]; first [discriminate H | reflexivity] ]).

Lemma lowerAscii_t :
  forall c, Transforms.lowerAscii c = "t"%char <-> c = "t"%char \/ c = "T"%char.
Proof. decide_letter. Qed.

Lemma lowerAscii_r :
  forall c, Transforms.lowerAscii c = "r"%char <-> c = "r"%char \/ c = "R"%char.
Proof. decide_letter. Qed.

Lemma lowerAscii_u :
  forall c, Transforms.lowerAscii c = "u"%char <-> c = "u"%char \/ c = "U"%char.
Proof. decide_letter. Qed.

Lemma lowerAscii_e :
  forall c, Transforms.lowerAscii c = "e"%char <-> c = "e"%char \/ c = "E"%char.
Proof. decide_letter. Qed.

Lemma toLowerCase_true (s : string) :
  Transforms.toLowerCase s = "true" <-> spellsTrue s.
Proof.
  unfold spellsTrue. split.
  - destruct s as [| t [| r [| u [| e [| ? ?]]]]]; simpl; try discriminate.
    intros H. injection H as Ht Hr Hu He.
    exists t, r, u, e. split; [reflexivity |].
    now rewrite <- lowerAscii_t, <- lowerAscii_r, <- lowerAscii_u, <- lowerAscii_e.
  - intros (t & r & u & e & -> & Ht & Hr & Hu & He). simpl.
    apply lowerAscii_t in Ht. apply lowerAscii_r in Hr.
    apply lowerAscii_u in Hu. apply lowerAscii_e in He.
    now rewrite Ht, Hr, Hu, He.
Qed.

End LowerCase.

(** X15: [toBoolean] turns a string into [true] exactly when the string
    spells [true] in some letter case ([true], [TRUE], [True], ...); every
    other text, such as [1], [yes], [on] or the empty string, gives [false],
    as do [undefined] and [null]; a boolean is kept. *)
Theorem toBoolean_accepts_spellings_of_true :
  (forall s : string, Transforms.toBoolean (JString s) = true <-> spellsTrue s)
  /\ (forall b : bool, Transforms.toBoolean (JBool b) = b)
  /\ Transforms.toBoolean JUndefined = false
  /\ Transforms.toBoolean JNull = false.
Proof.
  split; [| split; [intros []; reflexivity | split; reflexivity]].
  intros s. unfold Transforms.toBoolean; simpl.
  rewrite String.eqb_eq. apply toLowerCase_true.
Qed.

(** ** Further properties of the telemetry provider *)


Section InitFurther.

Implicit Types (cfg : Telemetry.TelemetryConfig) (g : Telemetry.Global).

Lemma initFromConfig_constructs cfg g :
  Telemetry.telemetryEnabled cfg = true ->
  Telemetry.__otel_sdk g = None ->
  fst (Telemetry.initFromConfig cfg g) = Some (constructedFrom cfg (Telemetry.constructed g))
  /\ Telemetry.__otel_sdk (snd (Telemetry.initFromConfig cfg g))
     = Some (constructedFrom cfg (Telemetry.constructed g))
  /\ Telemetry.constructed (snd (Telemetry.initFromConfig cfg g))
     = S (Telemetry.constructed g).
Proof.
  intros Henabled Hempty. unfold Telemetry.initFromConfig.
  rewrite Henabled, Hempty. repeat split.
Qed.

Lemma initFromConfig_disabled_slot cfg g :
  Telemetry.telemetryEnabled cfg = false ->
  Telemetry.__otel_sdk (snd (Telemetry.initFromConfig cfg g)) = Telemetry.__otel_sdk g
  /\ Telemetry.constructed (snd (Telemetry.initFromConfig cfg g)) = Telemetry.constructed g.
Proof.
  intros Hdisabled. rewrite (initFromConfig_disabled cfg g Hdisabled). split; reflexivity.
Qed.

End InitFurther.

(** X17: in a process that has no SDK yet, any sequence of
    [initFromConfig] calls constructs at most one SDK: none if no call has
    telemetry enabled, and otherwise one, built from the first enabled
    configuration; the endpoints, service names and intervals of later
    configurations are never used. *)
Theorem initAll_builds_from_first_enabled
    (cfgs : list Telemetry.TelemetryConfig) (g : Telemetry.Global) :
  Telemetry.__otel_sdk g = None ->
  match List.find Telemetry.telemetryEnabled cfgs with
  | Some cfg =>
      Telemetry.__otel_sdk (snd (Telemetry.initAll cfgs g))
      = Some (constructedFrom cfg (Telemetry.constructed g))
      /\ Telemetry.constructed (snd (Telemetry.initAll cfgs g)) = S (Telemetry.constructed g)
  | None =>
      Telemetry.__otel_sdk (snd (Telemetry.initAll cfgs g)) = None
      /\ Telemetry.constructed (snd (Telemetry.initAll cfgs g)) = Telemetry.constructed g
  end.
Proof.
  revert g. induction cfgs as [| cfg rest IH]; intros g Hempty; simpl.
  - split; [assumption | reflexivity].
  - destruct (Telemetry.telemetryEnabled cfg) eqn:Henabled.
    + destruct (initFromConfig_constructs cfg g Henabled Hempty) as (_ & Hslot & Hcount).
      destruct (Telemetry.initFromConfig cfg g) as [r g1]; simpl in *.
      destruct (initAll_reuses rest g1 _ Hslot) as (_ & Hkept & Hsame).
      destruct (Telemetry.initAll rest g1) as [rs g2]; simpl in *.
      split; [exact Hkept | congruence].
    + destruct (initFromConfig_disabled_slot cfg g Henabled) as [Hslot Hcount].
      destruct (Telemetry.initFromConfig cfg g) as [r g1]; simpl in *.
      specialize (IH g1 ltac:(congruence)).
      destruct (Telemetry.initAll rest g1) as [rs g2]; simpl in *.
      destruct (List.find Telemetry.telemetryEnabled rest);
        destruct IH as [Hfinal Hfinalcount]; split; congruence.
Qed.

Lemma initAll_builds_from_first_enabled_witness :
  Telemetry.__otel_sdk
    (snd (Telemetry.initAll
            [Examples.telemetryOff; Examples.telemetryElsewhere; Examples.telemetryOn]
            Examples.pristine))
  = Some {| Telemetry.instanceId := 0;
            Telemetry.metricExporterUrl := "http://collector:4318/v1/metrics";
            Telemetry.exportIntervalMillis := 1000;
            Telemetry.resourceServiceName := "other-service";
            Telemetry.resourceServiceVersion := "1.2.3";
            Telemetry.traceExporterUrl := "http://collector:4318/v1/traces" |}
  /\ Telemetry.constructed
       (snd (Telemetry.initAll
               [Examples.telemetryOff; Examples.telemetryElsewhere; Examples.telemetryOn]
               Examples.pristine))
     = 1%nat.
Proof.
  exact (initAll_builds_from_first_enabled
           [Examples.telemetryOff; Examples.telemetryElsewhere; Examples.telemetryOn]
           Examples.pristine eq_refl).
Defined.

(** ** The provider's lifecycle *)

(** X18: a process without an SDK that runs [initFromConfig] with telemetry
    enabled, then [onModuleInit] (telemetry enabled in [appConfig]) and then
    [onModuleDestroy], constructs one SDK, calls [start()] on it once and
    [shutdown()] on it once, and on no other; the SDK stays in
    [global.__otel_sdk] afterwards. *)
Theorem lifecycle_starts_and_stops_one_sdk
    (cfg : Telemetry.TelemetryConfig) (appConfig : AppConfig)
    (shutdown : Telemetry.NodeSDK -> Outcome unit) (p : Lifecycle.Process) :
  Telemetry.telemetryEnabled cfg = true ->
  telemetryEnabled appConfig = true ->
  Telemetry.__otel_sdk (Lifecycle.globals p) = None ->
  Lifecycle.startCalls
    (snd (Lifecycle.onModuleDestroy shutdown
            (Lifecycle.onModuleInit appConfig (snd (Lifecycle.initFromConfig cfg p)))))
  = (Lifecycle.startCalls p ++ [Telemetry.constructed (Lifecycle.globals p)])%list
  /\ Lifecycle.shutdownCalls
       (snd (Lifecycle.onModuleDestroy shutdown
               (Lifecycle.onModuleInit appConfig (snd (Lifecycle.initFromConfig cfg p)))))
     = (Lifecycle.shutdownCalls p ++ [Telemetry.constructed (Lifecycle.globals p)])%list
  /\ Telemetry.constructed
       (Lifecycle.globals
          (snd (Lifecycle.onModuleDestroy shutdown
                  (Lifecycle.onModuleInit appConfig (snd (Lifecycle.initFromConfig cfg p))))))
     = S (Telemetry.constructed (Lifecycle.globals p))
  /\ Telemetry.__otel_sdk
       (Lifecycle.globals
          (snd (Lifecycle.onModuleDestroy shutdown
                  (Lifecycle.onModuleInit appConfig (snd (Lifecycle.initFromConfig cfg p))))))
     = Some (constructedFrom cfg (Telemetry.constructed (Lifecycle.globals p))).
Proof.
  intros Hcfg Happ Hempty.
  unfold Lifecycle.initFromConfig, Telemetry.initFromConfig.
  rewrite Hcfg, Hempty; simpl.
  unfold Lifecycle.onModuleInit. rewrite Happ; simpl.
  unfold Lifecycle.onModuleDestroy; simpl.
  destruct (shutdown _); simpl; repeat split.
Qed.

Lemma lifecycle_starts_and_stops_one_sdk_witness :
  Lifecycle.startCalls
    (snd (Lifecycle.onModuleDestroy (fun _ => Return tt)
            (Lifecycle.onModuleInit
               {| nodeEnv := "production"; port := 3000; debug := false;
                  githubStatusUrl := "https://www.githubstatus.com/api/v2/summary.json";
                  githubStatusCacheTtlMs := 60000; githubStatusProviderType := "default";
                  githubStatusTimeoutMs := 2000; telemetryEnabled := true;
                  otelExporterOtlpEndpoint := "http://localhost:4318";
                  otelServiceName := "nestjs-rr7"; otelServiceVersion := "0.0.0";
                  otelExportIntervalMs := 60000 |}
               (snd (Lifecycle.initFromConfig Examples.telemetryOn
                       {| Lifecycle.globals := Examples.pristine;
                          Lifecycle.startCalls := [];
                          Lifecycle.shutdownCalls := [] |})))))
  = [0%nat].
Proof.
  exact (proj1 (lifecycle_starts_and_stops_one_sdk Examples.telemetryOn
                  {| nodeEnv := "production"; port := 3000; debug := false;
                     githubStatusUrl := "https://www.githubstatus.com/api/v2/summary.json";
                     githubStatusCacheTtlMs := 60000; githubStatusProviderType := "default";
                     githubStatusTimeoutMs := 2000; telemetryEnabled := true;
                     otelExporterOtlpEndpoint := "http://localhost:4318";
                     otelServiceName := "nestjs-rr7"; otelServiceVersion := "0.0.0";
                     otelExportIntervalMs := 60000 |}
                  (fun _ => Return tt)
                  {| Lifecycle.globals := Examples.pristine;
                     Lifecycle.startCalls := [];
                     Lifecycle.shutdownCalls := [] |}
                  eq_refl eq_refl eq_refl)).
Defined.

(** X19: [onModuleDestroy] shuts the stored SDK down but does not clear
    [global.__otel_sdk]. A later [initFromConfig] with telemetry enabled,
    in the same process, therefore returns the SDK that was shut down and
    constructs no fresh one, whether or not the shutdown succeeded. *)
Theorem shut_down_sdk_is_handed_out_again
    (cfg : Telemetry.TelemetryConfig) (shutdown : Telemetry.NodeSDK -> Outcome unit)
    (p : Lifecycle.Process) (sdk : Telemetry.NodeSDK) :
  Telemetry.__otel_sdk (Lifecycle.globals p) = Some sdk ->
  Telemetry.telemetryEnabled cfg = true ->
  fst (Lifecycle.onModuleDestroy shutdown p) = shutdown sdk
  /\ Lifecycle.shutdownCalls (snd (Lifecycle.onModuleDestroy shutdown p))
     = (Lifecycle.shutdownCalls p ++ [Telemetry.instanceId sdk])%list
  /\ fst (Lifecycle.initFromConfig cfg (snd (Lifecycle.onModuleDestroy shutdown p))) = Some sdk
  /\ Telemetry.constructed
       (Lifecycle.globals
          (snd (Lifecycle.initFromConfig cfg (snd (Lifecycle.onModuleDestroy shutdown p)))))
     = Telemetry.constructed (Lifecycle.globals p).
Proof.
  intros Hstored Henabled.
  unfold Lifecycle.onModuleDestroy. rewrite Hstored.
  destruct (shutdown sdk) as [[] | e]; simpl;
    unfold Lifecycle.initFromConfig, Telemetry.initFromConfig; simpl;
    rewrite Henabled, Hstored; simpl; repeat split.
Qed.

Lemma shut_down_sdk_is_handed_out_again_witness :
  fst (Lifecycle.initFromConfig Examples.telemetryElsewhere
         (snd (Lifecycle.onModuleDestroy (fun _ => Return tt)
                 {| Lifecycle.globals :=
                      snd (Telemetry.initFromConfig Examples.telemetryOn Examples.pristine);
                    Lifecycle.startCalls := [0%nat];
                    Lifecycle.shutdownCalls := [] |})))
  = Some (constructedFrom Examples.telemetryOn 0).
Proof.
  exact (proj1 (proj2 (proj2
           (shut_down_sdk_is_handed_out_again Examples.telemetryElsewhere (fun _ => Return tt)
              {| Lifecycle.globals :=
                   snd (Telemetry.initFromConfig Examples.telemetryOn Examples.pristine);
                 Lifecycle.startCalls := [0%nat];
                 Lifecycle.shutdownCalls := [] |}
              (constructedFrom Examples.telemetryOn 0) eq_refl eq_refl)))).
Defined.

(** ** Request plumbing *)


(** X21: the production fallback leaves every request whose path starts
    with [/api] to Nest: the React Router handler is not run, no request
    line is logged for it, the console is not touched, and [next()] is
    called. The test is on the prefix alone, so [/apiary] is skipped like
    [/api/ping]. *)
Theorem productionFallback_skips_api
    (requestHandler : Bootstrap.RequestHandler) (req : Bootstrap.Request)
    (s : Bootstrap.Server) (rest : string) :
  Bootstrap.path req = "/api" ++ rest ->
  Bootstrap.productionFallback requestHandler req s
  = (Return tt, Bootstrap.emit (Bootstrap.Next None) s).
Proof.
  intros Hpath. unfold Bootstrap.productionFallback, Bootstrap.ssrFallback.
  rewrite Hpath. simpl. now destruct rest.
Qed.

Lemma productionFallback_skips_api_witness :
  Bootstrap.productionFallback
    (fun _ s => (Throw (newError "render failed"), s))
    {| Bootstrap.method := "GET"; Bootstrap.originalUrl := "/apiary?x=1";
       Bootstrap.path := "/apiary" |}
    {| Bootstrap.consoleWarn := Bootstrap.Foreign "warn";
       Bootstrap.consoleError := Bootstrap.Foreign "error";
       Bootstrap.output := [] |}
  = (Return tt,
     {| Bootstrap.consoleWarn := Bootstrap.Foreign "warn";
        Bootstrap.consoleError := Bootstrap.Foreign "error";
        Bootstrap.output := [Bootstrap.Next None] |}).
Proof.
  exact (productionFallback_skips_api
           (fun _ s => (Throw (newError "render failed"), s))
           {| Bootstrap.method := "GET"; Bootstrap.originalUrl := "/apiary?x=1";
              Bootstrap.path := "/apiary" |}
           {| Bootstrap.consoleWarn := Bootstrap.Foreign "warn";
              Bootstrap.consoleError := Bootstrap.Foreign "error";
              Bootstrap.output := [] |}
           "ary" eq_refl).
Defined.

(** ** The home route's loader *)

(** X22: the home loader does not wait for the status and does not fail
    with it: it hands back a promise that settles the way the provider's
    [getSummary()] does, and leaves the provider's world as [getSummary]
    left it. It writes one log line, adds 1 (with no attributes) to the
    counter [home_loader_calls] of the service's meter, and runs the fetch
    under a span named [getGitHubStatusSummary] of the service's tracer,
    which it ends once; the span carries an exception and the ERROR status
    exactly when [getSummary] rejected with something other than a
    [Response]. *)
Theorem loader_defers_to_getSummary
    (appConfig : AppConfig) (githubStatusProvider : GitHubStatusProvider)
    (rt : HomeRoute.Runtime) :
  fst (HomeRoute.loader appConfig githubStatusProvider rt)
  = {| HomeRoute.summary :=
         Telemetry.Promised (fst (getSummary githubStatusProvider (HomeRoute.world rt)));
       HomeRoute.span :=
         {| Telemetry.tracerName := otelServiceName appConfig;
            Telemetry.tracerVersion := otelServiceVersion appConfig;
            Telemetry.spanName := "getGitHubStatusSummary";
            Telemetry.spanOptions := None;
            Telemetry.endCalls := 1;
            Telemetry.exceptions :=
              match fst (getSummary githubStatusProvider (HomeRoute.world rt)) with
              | Return _ => []
              | Throw error =>
                  if isFetchResponse error then []
                  else [{| Telemetry.exceptionName := Telemetry.getName error;
                           Telemetry.exceptionMessage := Telemetry.getMessage error;
                           Telemetry.exceptionStack := Telemetry.getStack error |}]
              end;
            Telemetry.spanStatus :=
              match fst (getSummary githubStatusProvider (HomeRoute.world rt)) with
              | Return _ => (Telemetry.UNSET, None)
              | Throw error =>
                  if isFetchResponse error then (Telemetry.UNSET, None)
                  else (Telemetry.ERROR, Telemetry.getMessage error)
              end |} |}
  /\ snd (HomeRoute.loader appConfig githubStatusProvider rt)
     = {| HomeRoute.world := snd (getSummary githubStatusProvider (HomeRoute.world rt));
          HomeRoute.additions :=
            (HomeRoute.additions rt
             ++ [{| Metrics.meterName := otelServiceName appConfig;
                    Metrics.counterName := "home_loader_calls";
                    Metrics.metricOptions :=
                      Some [("description", "Number of times the home loader was called")];
                    Metrics.amount := 1;
                    Metrics.attributes := [] |}])%list;
          HomeRoute.logLines :=
            (HomeRoute.logLines rt
             ++ [("Loading GitHub status summary in Home loader", "home.tsx")])%list |}.
Proof.
  unfold HomeRoute.loader, Telemetry.withSpan, Metrics.count.
  destruct (getSummary githubStatusProvider (HomeRoute.world rt)) as [[value | error] w];
    simpl.
  - split; reflexivity.
  - unfold Telemetry.recordSpanException.
    destruct (isFetchResponse error); split; reflexivity.
Qed.
